(** * SherpaJS structure compiler: a shallow embedding and its properties

    Embedded sources:
    - [src/compiler/structure/index.ts]: [getStructure], [getComponents],
      [getModule], [getEndpoints], [getEndpointFile],
      [getEndpointFileByModule], [getSegment], [flattenEndpoints];
    - [src/compiler/structure/config-module/index.ts]: [getModuleStructure],
      [getFilepath], [getInstance], [hasContextSchema].

    The file system, the module tooling and the path utilities are
    collaborators of the compiler; they are gathered in the record [Env] and
    every property is proved for all of them. *)

From Stdlib Require Import String Ascii List Bool Arith ZArith Lia.
Import ListNotations.
Open Scope string_scope.
Open Scope list_scope.

Set Implicit Arguments.
Set Warnings "-register-all".

(* ------------------------------------------------------------------ *)
(** ** JavaScript strings *)

Module JsString.

(** A double quote, for message texts that contain one. *)
Definition dquote : string := String "034"%char EmptyString.

(** Truthiness of a string: every string but the empty one. *)
Definition truthy (s : string) : bool :=
  match s with EmptyString => false | String _ _ => true end.

(** [s.startsWith(p)] *)
Definition startsWith (s p : string) : bool := String.prefix p s.

(** [s.endsWith(p)]: the last [p.length] code units of [s] are [p]. *)
Definition endsWith (s p : string) : bool :=
  (String.length p <=? String.length s)%nat
  && String.eqb (substring (String.length s - String.length p) (String.length p) s) p.

(** An index argument of [slice], made relative to the length. *)
Definition relative (len : nat) (i : Z) : nat :=
  if (i <? 0)%Z then Z.to_nat (Z.max (Z.of_nat len + i) 0)
  else Nat.min (Z.to_nat i) len.

(** [s.slice(b, e)] *)
Definition slice (s : string) (b e : Z) : string :=
  let from := relative (String.length s) b in
  let to := relative (String.length s) e in
  substring from (to - from) s.

(** [l.join(sep)] on a list of strings. *)
Fixpoint join (sep : string) (l : list string) : string :=
  match l with
  | [] => EmptyString
  | [x] => x
  | x :: r => (x ++ sep ++ join sep r)%string
  end.

End JsString.

(* ------------------------------------------------------------------ *)
(** ** JavaScript objects used as maps

    An object is the list of its own properties in enumeration order.
    JavaScript enumerates the array-index keys (["0"], ["1"], ...) first and
    the other keys in insertion order; the keys of an endpoint tree are ["."]
    or start with ["/"], never an array index, so here the enumeration order
    is the insertion order. *)

Module JsObject.
Section Obj.
Variable V : Type.

(** [o[k]] *)
Fixpoint get (k : string) (o : list (string * V)) : option V :=
  match o with
  | [] => None
  | (k', v) :: r => if String.eqb k k' then Some v else get k r
  end.

Definition has (k : string) (o : list (string * V)) : bool :=
  match get k o with Some _ => true | None => false end.

(** [o[k] = v] for a key that is not an array index: an existing key keeps
    its place, a new key goes last. *)
Fixpoint set (k : string) (v : V) (o : list (string * V)) : list (string * V) :=
  match o with
  | [] => [(k, v)]
  | (k', v') :: r =>
      if String.eqb k k' then (k, v) :: r else (k', v') :: set k v r
  end.

(** [Object.keys(o)] *)
Definition keys (o : list (string * V)) : list string := map fst o.

(** [{ ...a, ...b }] *)
Definition spread (a b : list (string * V)) : list (string * V) :=
  fold_left (fun acc kv => set (fst kv) (snd kv) acc) b a.

End Obj.
End JsObject.

(* ------------------------------------------------------------------ *)
(** ** Diagnostics *)

(** Modelled from the spec: the declaration of [Level] and [Message]
    ([utilities/logger/model]) is not among the sources.  Section 3 gives a
    diagnostic the shape [{ level, text, content?, file: { filepath } }] with
    levels INFO, WARN and ERROR.  The sources write some records without a
    [level] field, so the field is optional here. *)
Inductive Level : Type := INFO | WARN | ERROR.

Record Message : Type := {
  level : option Level;
  text : string;
  content : option string;
  file_filepath : string
}.

(** A diagnostic is ERROR-level when its [level] field is [ERROR]; a record
    written without the field has no level. *)
Definition isError (m : Message) : bool :=
  match level m with Some ERROR => true | _ => false end.

(** Modelled from the spec: [Logger.hasError] is not among the sources;
    section 4.3 (f): some diagnostic of the sequence is ERROR-level. *)
Definition hasError (logs : list Message) : bool := existsb isError logs.

(* ------------------------------------------------------------------ *)
(** ** Segments *)

Record Segment : Type := { name : string; isDynamic : bool }.

Definition getSegment (id : string) : Segment :=
  let isDynamic := JsString.startsWith id "[" && JsString.endsWith id "]" in
  let name := if isDynamic then JsString.slice id 1 (-1) else id in
  {| name := name; isDynamic := isDynamic |}.

(** The key of a child directory in the tree of its parent: [`/${segmentName}`],
    built in [getEndpoints] from the directory name as listed. *)
Definition segmentKey (segmentName : string) : string :=
  ("/" ++ segmentName)%string.

(* ------------------------------------------------------------------ *)
(** ** Results

    Every stage returns its diagnostics and, when it succeeded, a value:
    [{ logs, endpoints? }], [{ logs, module? }], [{ logs, server? }],
    [{ logs, files? }].  The module resolver of [config-module] names its
    diagnostics [errors]. *)

Record Logged (A : Type) : Type := { logs : list Message; result : option A }.

Record Checked (A : Type) : Type := { errors : list Message; found : option A }.

(** What a call comes to: it returns, it raises (an uncaught [TypeError], or
    the [RangeError] of a recursion that does not end), or the chain of
    delegated modules is deeper than the fuel allows (a chain that never
    ends does not return). *)
Inductive Outcome (A : Type) : Type :=
| Returned (a : A)
| Raised
| OutOfFuel.

Arguments Raised {A}.
Arguments OutOfFuel {A}.

Definition bind {A B : Type} (o : Outcome A) (k : A -> Outcome B) : Outcome B :=
  match o with
  | Returned a => k a
  | Raised => Raised
  | OutOfFuel => OutOfFuel
  end.

Notation "x <- e ;; k" := (bind e (fun x => k))
  (at level 61, e at next level, right associativity).

(** [parts.flat()] for parts that are computed one after the other: the
    first that does not return decides. *)
Fixpoint collect {A : Type} (parts : list (Outcome (list A))) : Outcome (list A) :=
  match parts with
  | [] => Returned []
  | part :: rest =>
      first <- part ;;
      others <- collect rest ;;
      Returned (first ++ others)
  end.

(** The diagnostics of a call that returned. *)
Definition logsOf {A : Type} (o : Outcome (Logged A)) : list Message :=
  match o with Returned r => logs r | _ => [] end.

(** What a [catch (e)] clause receives: [null] or [undefined], on which
    reading [e.message] raises a [TypeError], or a value whose [message] is a
    string or [undefined]. *)
Inductive Exception : Type :=
| Nullish
| Value (message : option string).

(** What a default export loads to: the load throws [e], or it yields the
    exported value, [undefined] when there is none. *)
Inductive Export (A : Type) : Type :=
| Thrown (e : Exception)
| Exported (value : option A).

Arguments Thrown {A}.

(* ------------------------------------------------------------------ *)
(** ** Data model *)

(** Modelled from the spec: the declarations of [models.ts] are not among the
    sources.  Section 3: a module configuration carries at least a name and
    an interface, [CreateModuleInterface] being the fixed root interface. *)
Inductive InterfaceRef : Type :=
| CreateModuleInterface
| UserInterface (label : string).

Record ModuleConfig : Type := { config_name : string; interface : InterfaceRef }.

(** [{ files: [{ filepath: { absolute } }], directories: { [name]: ... } }];
    [directories] lists the entries in the order of [Object.keys]. *)
Record RouteFile : Type := { filepath_absolute : string }.

Inductive DirectoryStructureTree : Type :=
| DirTree (files : list RouteFile)
          (directories : list (string * DirectoryStructureTree)).

Definition files (t : DirectoryStructureTree) : list RouteFile :=
  match t with DirTree f _ => f end.

Definition directories (t : DirectoryStructureTree)
  : list (string * DirectoryStructureTree) :=
  match t with DirTree _ d => d end.

Record RouteFiles : Type := { tree : DirectoryStructureTree }.

(** The module a loader export points to; only [filepath] is read. *)
Record LoadedModule : Type := { loaded_filepath : string }.

Section Model.

(** The opaque, app-defined context value. *)
Variable Context : Type.

(** One level of the module hierarchy, with the fields [getModule] writes. *)
Record ModuleConfigFile : Type := {
  entry : string;
  filepath : string;
  context : Context;
  contextFilepath : string;
  instance : ModuleConfig
}.

(** [config-module]: [{ filepath, instance, hasContextSchema }] *)
Record ModuleStructure : Type := {
  structure_filepath : string;
  structure_instance : ModuleConfig;
  structure_hasContextSchema : bool
}.

(** The default export of a functions file that delegates: only its
    [context] is read. *)
Record ModuleInterface : Type := { interface_context : Context }.

(** The root configuration; [getStructure] reads [server.filepath] and
    [server.instance.context]. *)
Record ServerConfig : Type := { server_context : Context }.

Record ServerConfigFile : Type := {
  server_filepath : string;
  server_instance : ServerConfig
}.

(** Modelled from the spec: the declaration of [Endpoint] is not among the
    sources.  Section 3: a terminal leaf with the filepath of its handler
    and of its view, its methods, its segment chain and the module whose
    context is in effect.  [flattenEndpoints] tells an endpoint from a
    tree by its [filepath], a concrete path. *)
Record Endpoint : Type := {
  endpoint_filepath : string;
  viewFilepath : option string;
  methods : list string;
  endpoint_module : ModuleConfigFile;
  segments : list Segment
}.

(** A value stored in a tree: [Endpoint | EndpointTree]. *)
Inductive EndpointNode : Type :=
| Terminal (e : Endpoint)
| Subtree (entries : list (string * EndpointNode)).

(** [EndpointTree = { [key:string]: Endpoint | EndpointTree }] *)
Definition EndpointTree : Type := list (string * EndpointNode).

(** [{ tree, list }] *)
Record EndpointStructure : Type := {
  endpoints_tree : EndpointTree;
  endpoints_list : list EndpointNode
}.

(** [{ logs, endpoints?, server? }] *)
Record Structure : Type := {
  structure_logs : list Message;
  structure_endpoints : option EndpointStructure;
  structure_server : option ServerConfigFile
}.

(** *** Collaborators

    The constants of [models.ts], the path and file utilities, the module
    tooling, the route-file walker and the declarative endpoint builder.
    The compiler only reads through them. *)
Record Env : Type := {
  FILENAME_CONFIG_MODULE : string;
  FILENAME_CONFIG_SERVER : string;
  SUPPORTED_FILE_EXTENSIONS : list string;
  ENDPOINT_VIEW : list string;
  ENDPOINT_FUNCTIONS : list string;
  CONTEXT_SCHEMA_TYPE_NAME : string;
  Files_getFilepathVariableExtension :
    string -> string -> list string -> option string;
  Files_getExtension : string -> string;
  Path_getDirectory : string -> string;
  Path_getName : string -> string;
  Path_resolveExtension : string -> string -> list string -> option string;
  Path_resolve : string -> string -> string;
  (** [Tooling.getDefaultExport(filepath)], read at the type each caller
      casts it to. *)
  Tooling_getDefaultExport_config : string -> Export ModuleConfig;
  Tooling_getDefaultExport_loader : string -> Export ModuleInterface;
  Tooling_getDefaultExport_server : string -> Export ServerConfig;
  Tooling_getExportedVariableNames : string -> list string;
  Tooling_hasExportedLoader : string -> bool;
  Tooling_getExportedLoader : string -> string -> string -> Logged LoadedModule;
  Tooling_typeValidation : string -> string -> list Message;
  getRouteFiles : string -> Logged RouteFiles;
  getEndpointFileByDeclaration :
    ModuleConfigFile -> option string -> option string -> list Segment ->
    Logged EndpointTree
}.

End Model.

Arguments Terminal {Context} e.
Arguments Subtree {Context} entries.

(* ------------------------------------------------------------------ *)
(** ** The module resolver ([config-module/index.ts]) *)

Section ModuleResolver.

Variable Context : Type.
Variable E : Env Context.

(** The record [getFilepath] returns when no configuration file is found;
    it has no [level] field. *)
Definition missingModuleConfig (entry : string) : Message :=
  {| level := None;
     text := "Module config file could not be found.";
     content := Some
       ("Must have module config, " ++ JsString.dquote
        ++ FILENAME_CONFIG_MODULE E ++ JsString.dquote ++ " "
        ++ "of type " ++ JsString.dquote
        ++ JsString.join (JsString.dquote ++ ", " ++ JsString.dquote)
             (SUPPORTED_FILE_EXTENSIONS E)
        ++ JsString.dquote ++ ".")%string;
     file_filepath := entry |}.

Definition getFilepath (entry : string) : Checked string :=
  let filepath :=
    Files_getFilepathVariableExtension E entry
      (FILENAME_CONFIG_MODULE E) (SUPPORTED_FILE_EXTENSIONS E) in
  match filepath with
  | Some fp =>
      if JsString.truthy fp
      then {| errors := []; found := Some fp |}
      else {| errors := [missingModuleConfig entry]; found := None |}
  | None => {| errors := [missingModuleConfig entry]; found := None |}
  end.

Definition unprocessedModuleConfig (filepath : string) : Message :=
  {| level := None;
     text := "Module config file could not be processed.";
     content := Some "Ensure module config has default export.";
     file_filepath := filepath |}.

Definition getInstance (filepath : string) : Checked ModuleConfig :=
  match Tooling_getDefaultExport_config E filepath with
  | Exported instance => {| errors := []; found := instance |}
  | Thrown _ =>
      {| errors := [unprocessedModuleConfig filepath]; found := None |}
  end.

Definition hasContextSchema (filepath : string) : bool :=
  let exportedVariables := Tooling_getExportedVariableNames E filepath in
  let exportedSchema :=
    existsb (String.eqb (CONTEXT_SCHEMA_TYPE_NAME E)) exportedVariables in
  let isTypescript := String.eqb (Files_getExtension E filepath) "TS" in
  exportedSchema && isTypescript.

Definition getModuleStructure (entry : string) : Checked ModuleStructure :=
  let r := getFilepath entry in
  match found r with
  | None => {| errors := errors r; found := None |}
  | Some filepath =>
      let i := getInstance filepath in
      match found i with
      | None => {| errors := errors i; found := None |}
      | Some instance =>
          {| errors := [];
             found := Some {| structure_filepath := filepath;
                              structure_instance := instance;
                              structure_hasContextSchema :=
                                hasContextSchema filepath |} |}
      end
  end.

(** Modelled from the spec: [getModuleConfig], the resolver entry that
    [structure/index.ts] imports, is not among the sources.  Section 4.2
    gives its contract, [resolveModule(entryDirectory, parentContext,
    parentContextFilepath) -> { context, diagnostics, moduleFile? }]: the
    resolution of [getModuleStructure], its diagnostics passed on, and on
    success the module file of section 3 with the context and the context
    filepath threaded through. *)
Definition getModuleConfig (entry : string) (context : Context)
    (contextFilepath : string) : Logged (ModuleConfigFile Context) :=
  let r := getModuleStructure entry in
  {| logs := errors r;
     result :=
       match found r with
       | None => None
       | Some m =>
           Some {| entry := entry;
                   filepath := structure_filepath m;
                   context := context;
                   contextFilepath := contextFilepath;
                   instance := structure_instance m |}
       end |}.

(** Modelled from the spec: the MissingConfig diagnostic of the server
    configuration (section 7: not found at a directory, ERROR); its wording
    follows the one of the module configuration. *)
Definition missingServerConfig (entry : string) : Message :=
  {| level := Some ERROR;
     text := "Server config file could not be found.";
     content := None;
     file_filepath := entry |}.

(** Modelled from the spec: the LoadFailure diagnostic of the server
    configuration (section 7: the default export threw or was unusable,
    ERROR). *)
Definition unprocessedServerConfig (filepath : string) : Message :=
  {| level := Some ERROR;
     text := "Server config file could not be processed.";
     content := None;
     file_filepath := filepath |}.

(** Modelled from the spec: [getServerConfig] ([config-server]) is not
    among the sources.  Section 4.4: a separate, simpler file lookup that
    yields the context and is a hard prerequisite; section 7: a file that is
    not found is one MissingConfig diagnostic, a default export that cannot
    be used one LoadFailure diagnostic. *)
Definition getServerConfig (entry : string) : Logged (ServerConfigFile Context) :=
  match Files_getFilepathVariableExtension E entry
          (FILENAME_CONFIG_SERVER E) (SUPPORTED_FILE_EXTENSIONS E) with
  | None => {| logs := [missingServerConfig entry]; result := None |}
  | Some fp =>
      match Tooling_getDefaultExport_server E fp with
      | Exported (Some instance) =>
          {| logs := [];
             result := Some {| server_filepath := fp;
                               server_instance := instance |} |}
      | _ => {| logs := [unprocessedServerConfig fp]; result := None |}
      end
  end.

End ModuleResolver.

(* ------------------------------------------------------------------ *)
(** ** The structure compiler ([structure/index.ts]) *)

Section StructureCompiler.

Variable Context : Type.
Variable E : Env Context.

Definition getModule (entry : string) (context : Context)
    (contextFilepath : string) (isRoot : bool)
  : Logged (ModuleConfigFile Context) :=
  if isRoot then
    {| logs := [];
       result := Some {| entry := entry;
                         filepath := entry;
                         context := context;
                         contextFilepath := contextFilepath;
                         instance := {| config_name := ".";
                                        interface := CreateModuleInterface |} |} |}
  else getModuleConfig E entry context contextFilepath.

Definition getViewFilepath (filepath : string) : option string :=
  let directory := Path_getDirectory E filepath in
  let filename := Path_getName E filepath in
  Path_resolveExtension E directory filename (ENDPOINT_VIEW E).

Definition getFunctionsFilepath (filepath : string) : option string :=
  let directory := Path_getDirectory E filepath in
  let filename := Path_getName E filepath in
  Path_resolveExtension E directory filename (ENDPOINT_FUNCTIONS E).

Definition viewWarning (viewFilepath : string) : Message :=
  {| level := Some WARN;
     text := "Views are not supported by Module Endpoints.";
     content := Some "View will be ignored.";
     file_filepath := viewFilepath |}.

Definition loaderParseError (message : option string)
    (functionsFilepath : string) : Message :=
  {| level := Some ERROR;
     text := "Module Loader failed to parse.";
     content := message;
     file_filepath := functionsFilepath |}.

(** [segments.join(".")]: a segment is an object, which [join] prints as
    [[object Object]]. *)
Definition Segment_toString (_ : Segment) : string := "[object Object]".

Definition overlapWarning (segments : list Segment) (filepath : string) : Message :=
  {| level := Some WARN;
     text := ("Overlapping endpoint segment: " ++ JsString.dquote
              ++ JsString.join "." (map Segment_toString segments)
              ++ JsString.dquote ++ ".")%string;
     content := None;
     file_filepath := filepath |}.

(** The functions below are written for one depth of delegation:
    [compile entry context contextFilepath segments] stands for the call
    [getComponents(entry, context, contextFilepath, segments, false)] that
    [getEndpointFileByModule] makes; [getComponents] closes the loop. *)
Section Delegation.

Variable compile :
  string -> Context -> string -> list Segment -> Outcome (Logged (EndpointTree Context)).

Definition getEndpointFileByModule (functionsFilepath : string)
    (viewFilepath : option string) (segments : list Segment)
  : Outcome (Logged (EndpointTree Context)) :=
  match viewFilepath with
  | Some view =>
      Returned {| logs := [viewWarning view]; result := None |}
  | None =>
      let loader :=
        Tooling_getExportedLoader E functionsFilepath "Module Loader" ".load" in
      let logs0 := logs loader in
      match result loader with
      | None => Returned {| logs := logs0; result := None |}
      | Some module =>
          match Tooling_getDefaultExport_loader E functionsFilepath with
          | Thrown Nullish => Raised
          | Thrown (Value message) =>
              Returned {| logs := [loaderParseError message functionsFilepath];
                          result := None |}
          | Exported None => Raised
          | Exported (Some moduleLoader) =>
              let entry :=
                Path_resolve E (loaded_filepath module)
                  (Path_getDirectory E functionsFilepath) in
              components <-
                compile entry (interface_context moduleLoader)
                  functionsFilepath segments ;;
              let typeErrors :=
                Tooling_typeValidation E functionsFilepath "Module Loader" in
              let logs1 := logs0 ++ logs components ++ typeErrors in
              if hasError logs1
              then Returned {| logs := logs1; result := None |}
              else Returned {| logs := logs1; result := result components |}
          end
      end
  end.

Definition getEndpointFile (module : ModuleConfigFile Context)
    (filepath : string) (segments : list Segment)
  : Outcome (Logged (EndpointTree Context)) :=
  let functionsFilepath := getFunctionsFilepath filepath in
  let viewFilepath := getViewFilepath filepath in
  match functionsFilepath with
  | Some functions =>
      if JsString.truthy functions && Tooling_hasExportedLoader E functions
      then getEndpointFileByModule functions viewFilepath segments
      else Returned (getEndpointFileByDeclaration E module
                       functionsFilepath viewFilepath segments)
  | None =>
      Returned (getEndpointFileByDeclaration E module
                  functionsFilepath viewFilepath segments)
  end.

(** The [for] loop of [getEndpoints] over [Object.keys(dirTree.directories)];
    [recurse] is the recursive call of [getEndpoints] on a child
    directory, [files] is [dirTree.files], and [endpoints] and [logs] are
    the two variables the loop updates.  Reading [dirTree.files[0]] for
    the warning raises when there is no route file. *)
Definition forEachDirectory
    (recurse : DirectoryStructureTree -> list Segment ->
               Outcome (Logged (EndpointTree Context)))
    (files : list RouteFile) (segments : list Segment)
  : list (string * DirectoryStructureTree) ->
    EndpointTree Context -> list Message ->
    Outcome (Logged (EndpointTree Context)) :=
  fix loop dirs endpoints logs0 :=
    match dirs with
    | [] => Returned {| logs := logs0; result := Some endpoints |}
    | (segmentName, child) :: rest =>
        let segmentKey := segmentKey segmentName in
        logs1 <-
          (if JsObject.has segmentKey endpoints then
             match files with
             | f :: _ =>
                 Returned (logs0 ++ [overlapWarning segments (filepath_absolute f)])
             | [] => Raised
             end
           else Returned logs0) ;;
        r <- recurse child (segments ++ [getSegment segmentName]) ;;
        let logs2 := logs1 ++ logs r in
        let endpoints' :=
          match result r with
          | Some _endpoints => JsObject.set segmentKey (Subtree _endpoints) endpoints
          | None => endpoints
          end in
        loop rest endpoints' logs2
    end.

Fixpoint getEndpoints (module : ModuleConfigFile Context)
    (dirTree : DirectoryStructureTree) (segments : list Segment) {struct dirTree}
  : Outcome (Logged (EndpointTree Context)) :=
  match dirTree with
  | DirTree files directories =>
      own <-
        match files with
        | f :: _ =>
            r <- getEndpointFile module (filepath_absolute f) segments ;;
            Returned (logs r,
                      match result r with
                      | Some _endpoints => JsObject.spread [] _endpoints
                      | None => []
                      end)
        | [] => Returned ([], [])
        end ;;
      forEachDirectory (getEndpoints module) files segments
        directories (snd own) (fst own)
  end.

End Delegation.

(** [module.entry] *)
Definition entryOf (module : ModuleConfigFile Context) : string := entry module.

(** [getComponents]; [fuel] bounds the depth of delegated modules below
    this call. *)
Fixpoint getComponents (fuel : nat) (entry : string) (context : Context)
    (contextFilepath : string) (segments : list Segment) (isRoot : bool)
    {struct fuel} : Outcome (Logged (EndpointTree Context)) :=
  let m := getModule entry context contextFilepath isRoot in
  let logs0 := logs m in
  match result m with
  | None => Returned {| logs := logs0; result := None |}
  | Some module =>
      let f := getRouteFiles E (entryOf module) in
      let logs1 := logs0 ++ logs f in
      match result f with
      | None => Returned {| logs := logs1; result := None |}
      | Some files =>
          structure <-
            getEndpoints
              (match fuel with
               | O => fun _ _ _ _ => OutOfFuel
               | S fuel' => fun e c cf s => getComponents fuel' e c cf s false
               end)
              module (tree files) segments ;;
          Returned {| logs := logs1 ++ logs structure;
                      result := result structure |}
      end
  end.

(** [flattenEndpoints] on a value that is not [undefined].

    The test [endpointTree["filepath"]] is one of truthiness.  An endpoint
    whose [filepath] is the empty string fails it and is walked as a tree,
    its own properties taken for subtrees: on a string that has characters
    (the path of its view, a method, the name of a segment) the walk calls
    itself on the first character without end, and the call raises a
    [RangeError].

    The keys of an object are distinct, so mapping [Object.keys] through
    [endpointTree[segment]] visits the entries in order; the entry at ["."]
    is pushed as it is, without a look at it. *)
Fixpoint flattenNode (endpointTree : EndpointNode Context)
  : Outcome (list (EndpointNode Context)) :=
  match endpointTree with
  | Terminal e =>
      if JsString.truthy (endpoint_filepath e)
      then Returned [Terminal e]
      else Raised
  | Subtree entries =>
      if JsObject.has "filepath" entries then Returned [Subtree entries]
      else
        let endpointList :=
          match JsObject.get "." entries with
          | Some dot => [dot]
          | None => []
          end in
        flattened <-
          (fix each (l : list (string * EndpointNode Context)) :=
             match l with
             | [] => Returned []
             | (segment, node) :: rest =>
                 if negb (String.eqb segment ".")
                 then first <- flattenNode node ;;
                      others <- each rest ;;
                      Returned (first ++ others)
                 else each rest
             end) entries ;;
        Returned (endpointList ++ flattened)
  end.

Definition flattenEndpoints (endpointTree : option (EndpointNode Context))
  : Outcome (list (EndpointNode Context)) :=
  match endpointTree with
  | None => Returned []
  | Some node => flattenNode node
  end.

Definition getStructure (fuel : nat) (entry : string) : Outcome (Structure Context) :=
  let s := getServerConfig E entry in
  let logs0 := logs s in
  match result s with
  | None =>
      Returned {| structure_logs := logs0;
                  structure_endpoints := None;
                  structure_server := None |}
  | Some server =>
      c <- getComponents fuel entry (server_context (server_instance server))
             (server_filepath server) [] true ;;
      let logs1 := logs0 ++ logs c in
      match result c with
      | None =>
          Returned {| structure_logs := logs1;
                      structure_endpoints := None;
                      structure_server := None |}
      | Some endpoints =>
          list <- flattenEndpoints (Some (Subtree endpoints)) ;;
          Returned {| structure_logs := logs1;
                      structure_endpoints :=
                        Some {| endpoints_tree := endpoints;
                                endpoints_list := list |};
                      structure_server := Some server |}
      end
  end.

(** The same project with every module configuration file taken away: the
    lookup of [FILENAME_CONFIG_MODULE] finds nothing in any directory. *)
Definition withoutModuleConfigs : Env Context :=
  {| FILENAME_CONFIG_MODULE := FILENAME_CONFIG_MODULE E;
     FILENAME_CONFIG_SERVER := FILENAME_CONFIG_SERVER E;
     SUPPORTED_FILE_EXTENSIONS := SUPPORTED_FILE_EXTENSIONS E;
     ENDPOINT_VIEW := ENDPOINT_VIEW E;
     ENDPOINT_FUNCTIONS := ENDPOINT_FUNCTIONS E;
     CONTEXT_SCHEMA_TYPE_NAME := CONTEXT_SCHEMA_TYPE_NAME E;
     Files_getFilepathVariableExtension :=
       fun directory filename extensions =>
         if String.eqb filename (FILENAME_CONFIG_MODULE E) then None
         else Files_getFilepathVariableExtension E directory filename extensions;
     Files_getExtension := Files_getExtension E;
     Path_getDirectory := Path_getDirectory E;
     Path_getName := Path_getName E;
     Path_resolveExtension := Path_resolveExtension E;
     Path_resolve := Path_resolve E;
     Tooling_getDefaultExport_config := Tooling_getDefaultExport_config E;
     Tooling_getDefaultExport_loader := Tooling_getDefaultExport_loader E;
     Tooling_getDefaultExport_server := Tooling_getDefaultExport_server E;
     Tooling_getExportedVariableNames := Tooling_getExportedVariableNames E;
     Tooling_hasExportedLoader := Tooling_hasExportedLoader E;
     Tooling_getExportedLoader := Tooling_getExportedLoader E;
     Tooling_typeValidation := Tooling_typeValidation E;
     getRouteFiles := getRouteFiles E;
     getEndpointFileByDeclaration := getEndpointFileByDeclaration E |}.

End StructureCompiler.

(* ------------------------------------------------------------------ *)
(** ** Sample projects

    A project on disk, given by tables, and the collaborators that read it.
    Contexts are strings here. *)

Module Sample.

(** [s] cut at the last [sep]: what is before it and what is after. *)
Fixpoint splitLast (sep : ascii) (s : string) : option (string * string) :=
  match s with
  | EmptyString => None
  | String c r =>
      match splitLast sep r with
      | Some (a, b) => Some (String c a, b)
      | None => if Ascii.eqb c sep then Some (EmptyString, r) else None
      end
  end.

Definition dirname (p : string) : string :=
  match splitLast "/" p with Some (d, _) => d | None => "." end.

Definition basename (p : string) : string :=
  match splitLast "/" p with Some (_, b) => b | None => p end.

Definition stem (p : string) : string :=
  match splitLast "." (basename p) with Some (n, _) => n | None => basename p end.

Definition extension (p : string) : string :=
  match splitLast "." (basename p) with
  | Some (_, e) =>
      if String.eqb e "ts" then "TS" else if String.eqb e "js" then "JS" else e
  | None => EmptyString
  end.

Record Project : Type := {
  (** the files that exist *)
  disk : list string;
  (** what the walker lists under an entry directory *)
  routes : list (string * DirectoryStructureTree);
  (** functions files that export a loader: the directory the loader
      points to and the context of the default export *)
  loaders : list (string * (string * string));
  (** files whose default export throws, with the message *)
  broken : list (string * string);
  (** what the type validation reports on a file *)
  typeErrors : list (string * list Message);
  (** the names a file exports *)
  exported : list (string * list string)
}.

Definition exists_ (P : Project) (p : string) : bool :=
  existsb (String.eqb p) (disk P).

Definition resolveExtension (P : Project) (directory filename : string)
    (extensions : list string) : option string :=
  find (exists_ P)
    (map (fun e => (directory ++ "/" ++ filename ++ "." ++ e)%string) extensions).

Definition declare (module : ModuleConfigFile string)
    (functions view : option string) (segments : list Segment)
  : Logged (EndpointTree string) :=
  match functions, view with
  | None, None => {| logs := []; result := None |}
  | Some f, _ =>
      {| logs := [];
         result := Some [(".", Terminal {| endpoint_filepath := f;
                                           viewFilepath := view;
                                           methods := ["GET"];
                                           endpoint_module := module;
                                           segments := segments |})] |}
  | None, Some v =>
      {| logs := [];
         result := Some [(".", Terminal {| endpoint_filepath := v;
                                           viewFilepath := view;
                                           methods := ["GET"];
                                           endpoint_module := module;
                                           segments := segments |})] |}
  end.

Definition envOf (P : Project) : Env string :=
  {| FILENAME_CONFIG_MODULE := "sherpa.module";
     FILENAME_CONFIG_SERVER := "sherpa.server";
     SUPPORTED_FILE_EXTENSIONS := ["js"; "ts"];
     ENDPOINT_VIEW := ["html"];
     ENDPOINT_FUNCTIONS := ["js"; "ts"];
     CONTEXT_SCHEMA_TYPE_NAME := "ContextSchema";
     Files_getFilepathVariableExtension := resolveExtension P;
     Files_getExtension := extension;
     Path_getDirectory := dirname;
     Path_getName := stem;
     Path_resolveExtension := resolveExtension P;
     Path_resolve := fun target directory => (directory ++ "/" ++ target)%string;
     Tooling_getDefaultExport_config := fun p =>
       match JsObject.get p (broken P) with
       | Some message => Thrown (Value (Some message))
       | None =>
           Exported (Some {| config_name := dirname p;
                             interface := UserInterface p |})
       end;
     Tooling_getDefaultExport_loader := fun p =>
       match JsObject.get p (broken P) with
       | Some message => Thrown (Value (Some message))
       | None =>
           Exported
             (option_map (fun l => {| interface_context := snd l |})
                (JsObject.get p (loaders P)))
       end;
     Tooling_getDefaultExport_server := fun p =>
       match JsObject.get p (broken P) with
       | Some message => Thrown (Value (Some message))
       | None => Exported (Some {| server_context := "server" |})
       end;
     Tooling_getExportedVariableNames := fun p =>
       match JsObject.get p (exported P) with Some l => l | None => [] end;
     Tooling_hasExportedLoader := fun p => JsObject.has p (loaders P);
     Tooling_getExportedLoader := fun p _ _ =>
       {| logs := [];
          result := option_map (fun l => {| loaded_filepath := fst l |})
                      (JsObject.get p (loaders P)) |};
     Tooling_typeValidation := fun p _ =>
       match JsObject.get p (typeErrors P) with Some l => l | None => [] end;
     getRouteFiles := fun entry =>
       match JsObject.get entry (routes P) with
       | Some t => {| logs := []; result := Some {| tree := t |} |}
       | None => {| logs := []; result := None |}
       end;
     getEndpointFileByDeclaration := declare |}.

Definition route (p : string) : RouteFile := {| filepath_absolute := p |}.

(** A server configuration and one child directory [a] with a declarative
    route file. *)
Definition simple : Project :=
  {| disk := ["/app/sherpa.server.ts"; "/app/a/index.ts"];
     routes := [("/app", DirTree [] [("a", DirTree [route "/app/a/index.ts"] [])])];
     loaders := [];
     broken := [];
     typeErrors := [];
     exported := [] |}.

(** The same without the server configuration. *)
Definition noServer : Project :=
  {| disk := ["/app/a/index.ts"];
     routes := routes simple;
     loaders := [];
     broken := [];
     typeErrors := [];
     exported := [] |}.

(** Two child directories, [[id]] and [id]. *)
Definition brackets : Project :=
  {| disk := ["/app/sherpa.server.ts"; "/app/[id]/index.ts"; "/app/id/index.ts"];
     routes :=
       [("/app", DirTree [] [("[id]", DirTree [route "/app/[id]/index.ts"] []);
                             ("id", DirTree [route "/app/id/index.ts"] [])])];
     loaders := [];
     broken := [];
     typeErrors := [];
     exported := [] |}.

(** The route file of the root delegates to the module in [/app/m1], which
    has the children [x] and [y]; the root has a child directory [x] too. *)
Definition delegated : Project :=
  {| disk := ["/app/sherpa.server.ts"; "/app/index.ts"; "/app/x/index.ts";
              "/app/m1/sherpa.module.ts";
              "/app/m1/x/index.ts"; "/app/m1/y/index.ts"];
     routes :=
       [("/app", DirTree [route "/app/index.ts"]
                   [("x", DirTree [route "/app/x/index.ts"] [])]);
        ("/app/m1", DirTree []
                   [("x", DirTree [route "/app/m1/x/index.ts"] []);
                    ("y", DirTree [route "/app/m1/y/index.ts"] [])])];
     loaders := [("/app/index.ts", ("m1", "m1-context"))];
     broken := [];
     typeErrors := [];
     exported := [("/app/m1/sherpa.module.ts", ["ContextSchema"]);
                  ("/app/m0/sherpa.module.js", ["ContextSchema"])] |}.

(** [delegated] with a view file beside the delegating route file. *)
Definition delegatedWithView : Project :=
  {| disk := "/app/index.html" :: disk delegated;
     routes := routes delegated;
     loaders := loaders delegated;
     broken := [];
     typeErrors := [];
     exported := exported delegated |}.

Definition typeError : Message :=
  {| level := Some ERROR;
     text := "Module Loader has the wrong type.";
     content := None;
     file_filepath := "/app/index.ts" |}.

(** [delegated] where the type validation of the delegating file reports
    an error. *)
Definition delegatedIllTyped : Project :=
  {| disk := disk delegated;
     routes := routes delegated;
     loaders := loaders delegated;
     broken := [];
     typeErrors := [("/app/index.ts", [typeError])];
     exported := exported delegated |}.

(** [delegated] without the module configuration of [/app/m1]. *)
Definition delegatedNoConfig : Project :=
  {| disk := ["/app/sherpa.server.ts"; "/app/index.ts"; "/app/x/index.ts";
              "/app/m1/x/index.ts"; "/app/m1/y/index.ts"];
     routes := routes delegated;
     loaders := loaders delegated;
     broken := [];
     typeErrors := [];
     exported := [] |}.

(** [delegated] where the route file of the child directory [x] of the
    root is a loader too, whose default export throws. *)
Definition delegatedBrokenChild : Project :=
  {| disk := disk delegated;
     routes := routes delegated;
     loaders := loaders delegated ++ [("/app/x/index.ts", ("m2", "m2-context"))];
     broken := [("/app/x/index.ts", "Unexpected token")];
     typeErrors := [];
     exported := exported delegated |}.

(** The module of the root of [/app], as [getModule] builds it. *)
Definition rootModule : ModuleConfigFile string :=
  {| entry := "/app";
     filepath := "/app";
     context := "server";
     contextFilepath := "/app/sherpa.server.ts";
     instance := {| config_name := "."; interface := CreateModuleInterface |} |}.

(** The delegated compilation the root level of a project calls. *)
Definition delegation (P : Project)
  : string -> string -> string -> list Segment -> Outcome (Logged (EndpointTree string)) :=
  fun e c cf s => getComponents (envOf P) 0 e c cf s false.

(** The child directory [x] of the root, and the root level of [delegated]
    and of its variants. *)
Definition directoryX : DirectoryStructureTree :=
  DirTree [route "/app/x/index.ts"] [].

Definition rootLevel : DirectoryStructureTree :=
  DirTree [route "/app/index.ts"] [("x", directoryX)].

Definition endpointAt (p : string) (chain : list Segment) : Endpoint string :=
  {| endpoint_filepath := p;
     viewFilepath := None;
     methods := ["GET"];
     endpoint_module := rootModule;
     segments := chain |}.

End Sample.

(* ------------------------------------------------------------------ *)
(** ** What one level adds

    The diagnostics and the tree of one directory level, written without the
    loop: they are what the properties below compare [getEndpoints] with. *)

(** The value of a call that returned. *)
Definition resultOf {A : Type} (o : Outcome (Logged A)) : option A :=
  match o with Returned r => result r | _ => None end.

Section Level.

Variable Context : Type.
Variable recurse :
  DirectoryStructureTree -> list Segment -> Outcome (Logged (EndpointTree Context)).
Variable files : list RouteFile.
Variable segments : list Segment.

(** The call made for the child directory [nd]. *)
Definition childCall (nd : string * DirectoryStructureTree)
  : Outcome (Logged (EndpointTree Context)) :=
  recurse (snd nd) (segments ++ [getSegment (fst nd)]).

(** The path the overlap warning is filed under, [dirTree.files[0]]. *)
Definition firstFilepath : string :=
  match files with f :: _ => filepath_absolute f | [] => EmptyString end.

(** What the child directory [nd] adds to the diagnostics of a level whose
    route file contributed [own]: one warning when [own] holds its key, then
    the diagnostics of its own compilation. *)
Definition directoryLogs (own : EndpointTree Context)
    (nd : string * DirectoryStructureTree) : list Message :=
  (if JsObject.has (segmentKey (fst nd)) own
   then [overlapWarning segments firstFilepath] else [])
  ++ logsOf (childCall nd).

(** What the child directory [nd] does to the tree of the level. *)
Definition directoryWrite (acc : EndpointTree Context)
    (nd : string * DirectoryStructureTree) : EndpointTree Context :=
  match resultOf (childCall nd) with
  | Some t => JsObject.set (segmentKey (fst nd)) (Subtree t) acc
  | None => acc
  end.

End Level.

Section Branch.

Variable Context : Type.
Variable E : Env Context.

(** What the route file of a level leaves in the tree before the loop:
    [{ ...endpoints, ..._endpoints }] when it yields a tree. *)
Definition ownTree (own : Logged (EndpointTree Context)) : EndpointTree Context :=
  match result own with
  | Some _endpoints => JsObject.spread [] _endpoints
  | None => []
  end.

(** The nested entry directory of the delegating file [functions] whose
    loader points to [loaded]. *)
Definition nestedEntryOf (functions : string) (loaded : LoadedModule) : string :=
  Path_resolve E (loaded_filepath loaded) (Path_getDirectory E functions).

(** The diagnostics of a delegated branch whose nested compilation logged
    [nested]: those of the loader, [nested], those of the type validation. *)
Definition branchLogsOf (functions : string) (nested : list Message) : list Message :=
  logs (Tooling_getExportedLoader E functions "Module Loader" ".load")
  ++ nested ++ Tooling_typeValidation E functions "Module Loader".

End Branch.

(* ------------------------------------------------------------------ *)
(** ** The bundler ([bundler/platforms/abstract.ts]) *)

(** [View = { html, filepath }] *)
Record View : Type := { html : string; view_filepath : string }.

Section Bundler.

Variable Context : Type.

(** [fs.readFileSync(path, "utf8")]: the content of the file, or nothing
    when the read raises. *)
Variable readFileSync : string -> option string.

(** [endpoint.viewFilepath] on a value of the list.  On an endpoint it is
    its view file, if it has one; on a tree it is the value under the key
    [viewFilepath], an object, which [readFileSync] refuses. *)
Definition makeBuildView (endpoint : EndpointNode Context) : Outcome (option View) :=
  match endpoint with
  | Terminal e =>
      match viewFilepath e with
      | Some v =>
          if JsString.truthy v then
            match readFileSync v with
            | Some content => Returned (Some {| html := content; view_filepath := v |})
            | None => Raised
            end
          else Returned None
      | None => Returned None
      end
  | Subtree entries =>
      if JsObject.has "viewFilepath" entries then Raised else Returned None
  end.

(** [makeBuildViews]: [this.views] is emptied, then one entry is pushed per
    endpoint of [this.endpoints.list]; [this.endpoints] is [undefined] when
    the structure came without endpoints. *)
Definition makeBuildViews (endpoints : option (EndpointStructure Context))
  : Outcome (list (option View)) :=
  match endpoints with
  | None => Raised
  | Some structure =>
      (fix loop (l : list (EndpointNode Context)) (views : list (option View)) :=
         match l with
         | [] => Returned views
         | endpoint :: rest =>
             view <- makeBuildView endpoint ;;
             loop rest (views ++ [view])
         end) (endpoints_list structure) []
  end.

End Bundler.

(* ------------------------------------------------------------------ *)
(** ** Shapes

    Predicates on directory trees and endpoint trees that the properties of
    the compiler are stated with. *)

(** The strings of a list are pairwise distinct. *)
Fixpoint distinct (l : list string) : bool :=
  match l with
  | [] => true
  | x :: r => negb (existsb (String.eqb x) r) && distinct r
  end.

(** At every level of a directory tree the directory names are distinct, as
    the keys of an object are. *)
Fixpoint distinctNames (t : DirectoryStructureTree) : bool :=
  match t with
  | DirTree _ dirs =>
      distinct (map fst dirs)
      && (fix each (l : list (string * DirectoryStructureTree)) :=
            match l with
            | [] => true
            | (_, d) :: r => distinctNames d && each r
            end) dirs
  end.

Section Shapes.

Variable Context : Type.

Definition isTerminal (n : EndpointNode Context) : bool :=
  match n with Terminal _ => true | Subtree _ => false end.

(** An endpoint tree in which the key ["."] holds an endpoint and every
    other key starts with ["/"] and holds a tree of the same shape. *)
Fixpoint wellFormedNode (n : EndpointNode Context) : bool :=
  match n with
  | Terminal _ => true
  | Subtree entries =>
      (fix each (l : list (string * EndpointNode Context)) :=
         match l with
         | [] => true
         | (k, v) :: r =>
             (match v with
              | Terminal _ => String.eqb k "."
              | Subtree _ => String.prefix "/" k && wellFormedNode v
              end) && each r
         end) entries
  end.

Definition wellFormedTree (t : EndpointTree Context) : bool :=
  wellFormedNode (Subtree t).

(** One entry of such a tree. *)
Definition wellFormedEntry (kv : string * EndpointNode Context) : bool :=
  match snd kv with
  | Terminal _ => String.eqb (fst kv) "."
  | Subtree _ => String.prefix "/" (fst kv) && wellFormedNode (snd kv)
  end.

End Shapes.

(* ------------------------------------------------------------------ *)
(** ** More sample projects *)

Module SampleMore.

(** The collaborators of [P], except that no file has a default export. *)
Definition withoutDefaultExport (P : Sample.Project) : Env string :=
  let E := Sample.envOf P in
  {| FILENAME_CONFIG_MODULE := FILENAME_CONFIG_MODULE E;
     FILENAME_CONFIG_SERVER := FILENAME_CONFIG_SERVER E;
     SUPPORTED_FILE_EXTENSIONS := SUPPORTED_FILE_EXTENSIONS E;
     ENDPOINT_VIEW := ENDPOINT_VIEW E;
     ENDPOINT_FUNCTIONS := ENDPOINT_FUNCTIONS E;
     CONTEXT_SCHEMA_TYPE_NAME := CONTEXT_SCHEMA_TYPE_NAME E;
     Files_getFilepathVariableExtension := Files_getFilepathVariableExtension E;
     Files_getExtension := Files_getExtension E;
     Path_getDirectory := Path_getDirectory E;
     Path_getName := Path_getName E;
     Path_resolveExtension := Path_resolveExtension E;
     Path_resolve := Path_resolve E;
     Tooling_getDefaultExport_config := fun _ => Exported None;
     Tooling_getDefaultExport_loader := fun _ => Exported None;
     Tooling_getDefaultExport_server := fun _ => Exported None;
     Tooling_getExportedVariableNames := Tooling_getExportedVariableNames E;
     Tooling_hasExportedLoader := Tooling_hasExportedLoader E;
     Tooling_getExportedLoader := Tooling_getExportedLoader E;
     Tooling_typeValidation := Tooling_typeValidation E;
     getRouteFiles := getRouteFiles E;
     getEndpointFileByDeclaration := getEndpointFileByDeclaration E |}.

(** A project three directories deep without delegating route files. *)
Definition deep : Sample.Project :=
  {| Sample.disk := ["/app/sherpa.server.ts"; "/app/index.ts"; "/app/index.html";
                     "/app/a/index.ts"; "/app/a/b/index.html"; "/app/c/index.ts"];
     Sample.routes :=
       [("/app",
         DirTree [Sample.route "/app/index.ts"]
           [("a", DirTree [Sample.route "/app/a/index.ts"]
                    [("b", DirTree [Sample.route "/app/a/b/index.html"] [])]);
            ("c", DirTree [Sample.route "/app/c/index.ts"] [])])];
     Sample.loaders := [];
     Sample.broken := [];
     Sample.typeErrors := [];
     Sample.exported := [] |}.

Definition deepLevel : DirectoryStructureTree :=
  DirTree [Sample.route "/app/index.ts"]
    [("a", DirTree [Sample.route "/app/a/index.ts"]
             [("b", DirTree [Sample.route "/app/a/b/index.html"] [])]);
     ("c", DirTree [Sample.route "/app/c/index.ts"] [])].

(** The files of [deep] as [readFileSync] sees them. *)
Definition read (p : string) : option string :=
  if Sample.exists_ deep p then Some ("<html>" ++ p ++ "</html>")%string else None.

End SampleMore.

(* ================================================================== *)
(** * Properties *)

(** ** Strings *)

Lemma length_app (a b : string) :
  String.length (a ++ b) = String.length a + String.length b.
Proof. induction a as [|c a IH]; simpl; [reflexivity | now rewrite IH]. Qed.

Lemma substring_whole (s : string) : substring 0 (String.length s) s = s.
Proof. induction s as [|c s IH]; simpl; [reflexivity | now rewrite IH]. Qed.

Lemma substring_app_left (a b : string) :
  substring 0 (String.length a) (a ++ b) = a.
Proof.
  induction a as [|c a IH]; simpl.
  - destruct b; reflexivity.
  - now rewrite IH.
Qed.

Lemma substring_app_right (a b : string) (n : nat) :
  substring (String.length a) n (a ++ b) = substring 0 n b.
Proof. induction a as [|c a IH]; simpl; [reflexivity | exact IH]. Qed.

Lemma prefix_bracket (s : string) :
  String.prefix "[" s = true <-> exists r, s = String "[" r.
Proof.
  split.
  - destruct s as [|c s]; [discriminate|]. cbn [String.prefix].
    destruct (Ascii.ascii_dec "[" c) as [<-|]; [|discriminate].
    intros _. now exists s.
  - intros [r ->]. cbn [String.prefix].
    destruct (Ascii.ascii_dec "[" "[") as [_|Hne]; [|congruence].
    destruct r; reflexivity.
Qed.

(** A string whose last character is the closing bracket. *)
Lemma last_bracket (r : string) :
  r <> EmptyString ->
  substring (String.length r - 1) 1 r = "]"%string ->
  exists x, r = (x ++ "]")%string.
Proof.
  induction r as [|c r IH]; intros Hne H; [congruence|].
  destruct r as [|c' r'].
  - simpl in H. injection H as ->. now exists EmptyString.
  - destruct IH as [x Hx]; [discriminate | | ].
    + simpl in H |- *. now rewrite Nat.sub_0_r in *.
    + exists (String c x). simpl. now rewrite <- Hx.
Qed.

Lemma endsWith_app (x : string) :
  JsString.endsWith (String "[" (x ++ "]")) "]" = true.
Proof.
  unfold JsString.endsWith. simpl String.length.
  rewrite length_app. simpl String.length.
  replace (S (String.length x + 1) - 1) with (S (String.length x)) by lia.
  simpl. rewrite (substring_app_right x "]" 1). reflexivity.
Qed.

Lemma slice_brackets (x : string) :
  JsString.slice (String "[" (x ++ "]")) 1 (-1) = x.
Proof.
  unfold JsString.slice, JsString.relative. simpl String.length.
  rewrite length_app. simpl String.length.
  replace (1 <? 0)%Z with false by reflexivity.
  replace (-1 <? 0)%Z with true by reflexivity.
  replace (Nat.min (Z.to_nat 1) (S (String.length x + 1))) with 1 by lia.
  replace (Z.to_nat (Z.max (Z.of_nat (S (String.length x + 1)) + -1) 0))
    with (S (String.length x)) by lia.
  replace (S (String.length x) - 1) with (String.length x) by lia.
  simpl. apply substring_app_left.
Qed.

Lemma isDynamic_brackets (id : string) :
  JsString.startsWith id "[" && JsString.endsWith id "]" = true <->
  exists x, id = ("[" ++ x ++ "]")%string.
Proof.
  split.
  - intros H. apply andb_prop in H as [Hs He].
    apply prefix_bracket in Hs as [r ->].
    unfold JsString.endsWith in He. apply andb_prop in He as [_ He].
    apply String.eqb_eq in He. simpl String.length in He.
    destruct r as [|c r]; [simpl in He; discriminate|].
    destruct (@last_bracket (String c r)) as [x Hx]; [discriminate | | ].
    + simpl in He |- *. now rewrite Nat.sub_0_r in *.
    + exists x. simpl. now rewrite Hx.
  - intros [x ->]. simpl append.
    rewrite endsWith_app. unfold JsString.startsWith. simpl.
    destruct (x ++ "]")%string; reflexivity.
Qed.

Lemma segmentKey_inj (a b : string) : segmentKey a = segmentKey b -> a = b.
Proof. unfold segmentKey. simpl. congruence. Qed.

(** ** Objects *)

Section ObjectFacts.

Variable V : Type.
Implicit Types (o : list (string * V)) (k : string) (v : V).

Lemma get_set_same k v o : JsObject.get k (JsObject.set k v o) = Some v.
Proof.
  induction o as [|[k' v'] o IH]; simpl.
  - now rewrite String.eqb_refl.
  - destruct (String.eqb k k') eqn:Hk; simpl; rewrite ?String.eqb_refl, ?Hk; auto.
Qed.

Lemma get_set_other k k' v o :
  k <> k' -> JsObject.get k' (JsObject.set k v o) = JsObject.get k' o.
Proof.
  intros Hne. induction o as [|[k0 v0] o IH]; simpl.
  - apply String.eqb_neq in Hne. rewrite String.eqb_sym in Hne. now rewrite Hne.
  - destruct (String.eqb k k0) eqn:Hk; simpl.
    + apply String.eqb_eq in Hk. subst k0.
      assert (String.eqb k' k = false) as -> by (apply String.eqb_neq; congruence).
      reflexivity.
    + now rewrite IH.
Qed.

Lemma has_set_same k v o : JsObject.has k (JsObject.set k v o) = true.
Proof. unfold JsObject.has. now rewrite get_set_same. Qed.

Lemma has_set_other k k' v o :
  k <> k' -> JsObject.has k' (JsObject.set k v o) = JsObject.has k' o.
Proof. intros H. unfold JsObject.has. now rewrite get_set_other. Qed.

Lemma has_set_inv k k' v o :
  JsObject.has k' (JsObject.set k v o) = true -> k' = k \/ JsObject.has k' o = true.
Proof.
  intros H. destruct (string_dec k k') as [->|Hne]; [now left|].
  right. now rewrite has_set_other in H.
Qed.

Lemma has_keys k o : JsObject.has k o = true <-> In k (JsObject.keys o).
Proof.
  unfold JsObject.has, JsObject.keys.
  induction o as [|[k' v'] o IH]; simpl; [split; [discriminate | tauto]|].
  destruct (String.eqb k k') eqn:Hk.
  - apply String.eqb_eq in Hk. subst. tauto.
  - apply String.eqb_neq in Hk. rewrite IH. split; [tauto|].
    intros [H|H]; [congruence | exact H].
Qed.

End ObjectFacts.

(** ** Lists *)

Lemma flat_map_ext_in {A B : Type} (f g : A -> list B) (l : list A) :
  (forall a, In a l -> f a = g a) -> flat_map f l = flat_map g l.
Proof.
  induction l as [|a l IH]; intros H; simpl; [reflexivity|].
  rewrite H by now left. f_equal. apply IH. intros b Hb. apply H. now right.
Qed.

(** ** Outcomes *)

Lemma bind_returned {A B : Type} (o : Outcome A) (k : A -> Outcome B) (b : B) :
  bind o k = Returned b -> exists a, o = Returned a /\ k a = Returned b.
Proof. destruct o as [a| |]; simpl; intros H; try discriminate. now exists a. Qed.

(** ** Induction on trees *)

Lemma DirectoryStructureTree_induction (P : DirectoryStructureTree -> Prop) :
  (forall files dirs, Forall (fun nd => P (snd nd)) dirs -> P (DirTree files dirs)) ->
  forall t, P t.
Proof.
  intros H. fix IH 1. intros [files dirs]. apply H.
  induction dirs as [|[n d] rest IHrest]; constructor; [apply IH | exact IHrest].
Qed.

Lemma EndpointNode_induction (Context : Type) (P : EndpointNode Context -> Prop) :
  (forall e, P (Terminal e)) ->
  (forall entries, Forall (fun kv => P (snd kv)) entries -> P (Subtree entries)) ->
  forall n, P n.
Proof.
  intros Ht Hs. fix IH 1. intros [e|entries]; [apply Ht|]. apply Hs.
  induction entries as [|[k v] rest IHrest]; constructor; [apply IH | exact IHrest].
Qed.

(** ** The loop over the child directories *)

(** The loop only calls [recurse] on the directories it walks. *)
Lemma forEachDirectory_congruence (Context : Type)
    (recurse recurse' : DirectoryStructureTree -> list Segment ->
                        Outcome (Logged (EndpointTree Context)))
    files segs dirs :
  Forall (fun nd => forall s, recurse (snd nd) s = recurse' (snd nd) s) dirs ->
  forall (endpoints : EndpointTree Context) logs0,
    forEachDirectory recurse files segs dirs endpoints logs0 =
    forEachDirectory recurse' files segs dirs endpoints logs0.
Proof.
  induction 1 as [|[n d] rest Hd _ IH]; intros endpoints logs0; simpl; [reflexivity|].
  destruct (if JsObject.has (segmentKey n) endpoints then _ else _); simpl;
    try reflexivity.
  simpl in Hd. rewrite Hd. destruct (recurse' d _); simpl; try reflexivity.
  apply IH.
Qed.

Section LoopFacts.

Variable Context : Type.
Variable recurse :
  DirectoryStructureTree -> list Segment -> Outcome (Logged (EndpointTree Context)).
Variable segments : list Segment.

Local Notation "'loop'" := (forEachDirectory recurse).
Local Notation "'write'" := (directoryWrite recurse segments).

(** The loop never gives up the tree: what it returns has one. *)
Lemma forEachDirectory_some files dirs :
  forall endpoints logs0 r,
    loop files segments dirs endpoints logs0 = Returned r ->
    exists t, result r = Some t.
Proof.
  induction dirs as [|[n d] rest IH]; intros endpoints logs0 r H; simpl in H.
  - injection H as <-. now eexists.
  - apply bind_returned in H as (l1 & _ & H).
    apply bind_returned in H as (c & _ & H).
    eapply IH, H.
Qed.

(** The diagnostics at hand when the loop starts stay in front. *)
Lemma forEachDirectory_logs files dirs :
  forall endpoints logs0 r,
    loop files segments dirs endpoints logs0 = Returned r ->
    exists rest, logs r = logs0 ++ rest.
Proof.
  induction dirs as [|[n d] rest IH]; intros endpoints logs0 r H; simpl in H.
  - injection H as <-. exists []. simpl. now rewrite app_nil_r.
  - apply bind_returned in H as (l1 & H1 & H).
    apply bind_returned in H as (c & _ & H).
    apply IH in H as (tl & ->).
    destruct (JsObject.has (segmentKey n) endpoints).
    + destruct files as [|f fs]; [discriminate|]. injection H1 as <-.
      eexists. now rewrite <- !app_assoc.
    + injection H1 as <-. eexists. now rewrite <- !app_assoc.
Qed.

(** The loop only writes the keys of the directories it walks. *)
Lemma forEachDirectory_keys files dirs :
  forall endpoints logs0 r t k,
    loop files segments dirs endpoints logs0 = Returned r ->
    result r = Some t ->
    JsObject.has k t = true ->
    JsObject.has k endpoints = true \/
    exists n, In n (map fst dirs) /\ k = segmentKey n.
Proof.
  induction dirs as [|[n d] rest IH]; intros endpoints logs0 r t k H Ht Hk;
    simpl in H.
  - injection H as <-. simpl in Ht. injection Ht as <-. now left.
  - apply bind_returned in H as (l1 & _ & H).
    apply bind_returned in H as (c & _ & H).
    destruct (IH _ _ _ _ _ H Ht Hk) as [Hin|(n' & Hin & ->)].
    + destruct (result c) as [t'|]; [|now left].
      apply has_set_inv in Hin as [->|Hin]; [|now left].
      right. exists n. simpl. auto.
    + right. exists n'. simpl. auto.
Qed.

(** A level with a route file walks its directories as the same level
    without one does; the diagnostics of the route file come first. *)
Lemma forEachDirectory_route_file files before dirs :
  forall endpoints logs0 r,
    loop [] segments dirs endpoints logs0 = Returned r ->
    loop files segments dirs endpoints (before ++ logs0) =
    Returned {| logs := before ++ logs r; result := result r |}.
Proof.
  induction dirs as [|[n d] rest IH]; intros endpoints logs0 r H; simpl in H |- *.
  - injection H as <-. reflexivity.
  - destruct (JsObject.has (segmentKey n) endpoints); [discriminate|].
    simpl in H |- *.
    destruct (recurse d (segments ++ [getSegment n])) as [c| |];
      simpl in H |- *; try discriminate.
    rewrite <- app_assoc. now apply IH.
Qed.

Lemma write_other dirs :
  forall acc k,
    ~ In k (map (fun nd => segmentKey (fst nd)) dirs) ->
    JsObject.get k (fold_left write dirs acc) = JsObject.get k acc.
Proof.
  induction dirs as [|[n d] rest IH]; intros acc k Hk; simpl in *; [reflexivity|].
  rewrite IH by tauto.
  unfold directoryWrite. destruct (resultOf _); [|reflexivity].
  apply get_set_other. simpl. intros Heq. apply Hk. now left.
Qed.

Lemma write_member dirs :
  forall acc n d t,
    NoDup (map fst dirs) ->
    In (n, d) dirs ->
    resultOf (childCall recurse segments (n, d)) = Some t ->
    JsObject.get (segmentKey n) (fold_left write dirs acc) = Some (Subtree t).
Proof.
  induction dirs as [|[n0 d0] rest IH]; intros acc n d t Hnd Hin Ht;
    simpl in *; [contradiction|].
  inversion Hnd as [|? ? Hnotin Hrest]; subst.
  destruct Hin as [Heq|Hin].
  - injection Heq as -> ->.
    rewrite write_other.
    + unfold directoryWrite. rewrite Ht. apply get_set_same.
    + rewrite in_map_iff. intros ([n' d'] & Hk & Hin').
      apply segmentKey_inj in Hk. simpl in Hk. subst n'.
      apply Hnotin. rewrite in_map_iff. now exists (n, d').
  - eapply IH; eauto.
Qed.

(** One level, without the loop: when the directory names are distinct and
    every child call returns, the loop returns the diagnostics it started
    with followed by what each directory adds, and the tree it started with
    after each directory has written its key.  Without a route file no key
    may be held beforehand, for the warning reads [files[0]]. *)
Lemma forEachDirectory_level files dirs :
  forall endpoints logs0,
    NoDup (map fst dirs) ->
    (files <> [] \/
     forall nd, In nd dirs -> JsObject.has (segmentKey (fst nd)) endpoints = false) ->
    (forall nd, In nd dirs -> exists r, childCall recurse segments nd = Returned r) ->
    loop files segments dirs endpoints logs0 =
    Returned
      {| logs := logs0 ++ flat_map (directoryLogs recurse files segments endpoints) dirs;
         result := Some (fold_left write dirs endpoints) |}.
Proof.
  induction dirs as [|[n d] rest IH]; intros endpoints logs0 Hnd Hfiles Hret.
  - simpl. now rewrite app_nil_r.
  - inversion Hnd as [|? ? Hnotin Hrest]; subst.
    destruct (Hret (n, d)) as [c Hc]; [now left|].
    unfold childCall in Hc. simpl in Hc.
    assert (Hwarn :
      (if JsObject.has (segmentKey n) endpoints then
         match files with
         | f :: _ => Returned (logs0 ++ [overlapWarning segments (filepath_absolute f)])
         | [] => Raised
         end
       else Returned logs0) =
      Returned (logs0 ++ (if JsObject.has (segmentKey n) endpoints
                          then [overlapWarning segments (firstFilepath files)]
                          else []))).
    { destruct (JsObject.has (segmentKey n) endpoints) eqn:Hhas.
      - destruct files as [|f fs]; [|reflexivity].
        destruct Hfiles as [Hf|Hf]; [congruence|].
        specialize (Hf (n, d) (or_introl eq_refl)). simpl in Hf. congruence.
      - now rewrite app_nil_r. }
    simpl. rewrite Hwarn. simpl. rewrite Hc. simpl.
    set (endpoints' := match result c with
                       | Some t => JsObject.set (segmentKey n) (Subtree t) endpoints
                       | None => endpoints
                       end).
    assert (Hsame : forall nd, In nd rest ->
              JsObject.has (segmentKey (fst nd)) endpoints' =
              JsObject.has (segmentKey (fst nd)) endpoints).
    { intros [n' d'] Hin. simpl. subst endpoints'.
      destruct (result c); [|reflexivity].
      apply has_set_other. intros Heq. apply segmentKey_inj in Heq. subst n'.
      apply Hnotin. rewrite in_map_iff. now exists (n, d'). }
    assert (Hl : flat_map (directoryLogs recurse files segments endpoints') rest =
                 flat_map (directoryLogs recurse files segments endpoints) rest).
    { apply flat_map_ext_in. intros nd Hin. unfold directoryLogs.
      now rewrite Hsame. }
    assert (Hd : directoryLogs recurse files segments endpoints (n, d) =
                 (if JsObject.has (segmentKey n) endpoints
                  then [overlapWarning segments (firstFilepath files)]
                  else []) ++ logs c).
    { unfold directoryLogs, childCall. simpl. now rewrite Hc. }
    assert (Hw : directoryWrite recurse segments endpoints (n, d) = endpoints').
    { unfold directoryWrite, childCall. simpl. now rewrite Hc. }
    rewrite IH; trivial.
    + simpl flat_map. simpl fold_left. rewrite Hl, Hd, Hw.
      now rewrite <- !app_assoc.
    + destruct Hfiles as [Hf|Hf]; [now left|]. right.
      intros nd Hin. rewrite Hsame by trivial. apply Hf. now right.
    + intros nd Hin. apply Hret. now right.
Qed.

End LoopFacts.

Section ObjectSpread.

Variable V : Type.

Lemma has_set (k k' : string) (v : V) (o : list (string * V)) :
  JsObject.has k' (JsObject.set k v o) = String.eqb k' k || JsObject.has k' o.
Proof.
  destruct (String.eqb k' k) eqn:Hk; simpl.
  - apply String.eqb_eq in Hk. subst. apply has_set_same.
  - apply String.eqb_neq in Hk. apply has_set_other. congruence.
Qed.

(** [{ ...a, ...b }] has the keys of [a] and the keys of [b]. *)
Lemma has_spread (k : string) (b : list (string * V)) :
  forall a, JsObject.has k (JsObject.spread a b) = JsObject.has k a || JsObject.has k b.
Proof.
  unfold JsObject.spread.
  induction b as [|[k0 v0] b IH]; intros a; simpl.
  - now rewrite orb_false_r.
  - assert (Hcons : JsObject.has k ((k0, v0) :: b) = String.eqb k k0 || JsObject.has k b).
    { unfold JsObject.has. simpl. now destruct (String.eqb k k0). }
    rewrite IH, has_set, Hcons.
    now destruct (String.eqb k k0), (JsObject.has k a), (JsObject.has k b).
Qed.

End ObjectSpread.

(** ** One directory level *)

Section LevelFacts.

Variable Context : Type.
Variable E : Env Context.
Variable compile :
  string -> Context -> string -> list Segment -> Outcome (Logged (EndpointTree Context)).
Variable module : ModuleConfigFile Context.

Lemma getEndpoints_route_file f fs dirs segs own :
  getEndpointFile E compile module (filepath_absolute f) segs = Returned own ->
  getEndpoints E compile module (DirTree (f :: fs) dirs) segs =
  forEachDirectory (getEndpoints E compile module) (f :: fs) segs dirs
    (ownTree own) (logs own).
Proof. intros H. simpl. rewrite H. reflexivity. Qed.

Lemma getEndpoints_no_route_file dirs segs :
  getEndpoints E compile module (DirTree [] dirs) segs =
  forEachDirectory (getEndpoints E compile module) [] segs dirs [] [].
Proof. reflexivity. Qed.

(** The compilation of a directory always comes with a tree. *)
Lemma getEndpoints_some dirTree segs r :
  getEndpoints E compile module dirTree segs = Returned r ->
  exists t, result r = Some t.
Proof.
  destruct dirTree as [files dirs]. simpl. intros H.
  apply bind_returned in H as (own & _ & H).
  eapply forEachDirectory_some, H.
Qed.

(** A level with a route file, without the loop. *)
Lemma getEndpoints_level f fs dirs segs own :
  NoDup (map fst dirs) ->
  getEndpointFile E compile module (filepath_absolute f) segs = Returned own ->
  (forall nd, In nd dirs ->
     exists r, getEndpoints E compile module (snd nd) (segs ++ [getSegment (fst nd)])
               = Returned r) ->
  getEndpoints E compile module (DirTree (f :: fs) dirs) segs =
  Returned
    {| logs := logs own
               ++ flat_map (directoryLogs (getEndpoints E compile module) (f :: fs) segs
                              (ownTree own)) dirs;
       result := Some (fold_left (directoryWrite (getEndpoints E compile module) segs)
                         dirs (ownTree own)) |}.
Proof.
  intros Hnd Hown Hret.
  rewrite getEndpoints_route_file with (own := own) by exact Hown.
  apply forEachDirectory_level; trivial.
  left. discriminate.
Qed.

(** The walk over a directory tree reads no module configuration: it is the
    same in the project without any module configuration file, the
    delegated compilation [compile] being the same. *)
Lemma getEndpoints_reads_no_module_config :
  forall dirTree segs,
    getEndpoints (withoutModuleConfigs E) compile module dirTree segs =
    getEndpoints E compile module dirTree segs.
Proof.
  induction dirTree as [files dirs IH] using DirectoryStructureTree_induction.
  assert (Hdirs : Forall (fun nd : string * DirectoryStructureTree =>
                            forall s,
                              getEndpoints (withoutModuleConfigs E) compile module
                                (snd nd) s =
                              getEndpoints E compile module (snd nd) s) dirs)
    by (eapply Forall_impl; [|exact IH]; intros nd Hnd s; apply Hnd).
  intros segs. simpl.
  destruct files as [|f fs].
  - simpl. now apply forEachDirectory_congruence.
  - change (getEndpointFile (withoutModuleConfigs E) compile module)
      with (getEndpointFile E compile module).
    destruct (getEndpointFile E compile module (filepath_absolute f) segs)
      as [own| |]; simpl; [|reflexivity|reflexivity].
    now apply forEachDirectory_congruence.
Qed.

End LevelFacts.

Lemma flat_map_member {A B : Type} (f : A -> list B) (l : list A) (a : A) :
  In a l -> exists before after, flat_map f l = before ++ f a ++ after.
Proof.
  intros H. apply in_split in H as (l1 & l2 & ->).
  exists (flat_map f l1), (flat_map f l2).
  now rewrite flat_map_app.
Qed.

(** ** Projects without delegated modules *)

Section LoaderFree.

Variable Context : Type.
Variable E : Env Context.

(** No functions file exports a loader. *)
Hypothesis Hnone : forall p, Tooling_hasExportedLoader E p = false.

Lemma getEndpointFile_without_loader compile module filepath segs :
  getEndpointFile E compile module filepath segs =
  Returned (getEndpointFileByDeclaration E module
              (getFunctionsFilepath E filepath) (getViewFilepath E filepath) segs).
Proof.
  unfold getEndpointFile.
  destruct (getFunctionsFilepath E filepath) as [functions|]; [|reflexivity].
  now rewrite Hnone, andb_false_r.
Qed.

Lemma getEndpoints_ignores_compile compile compile' module :
  forall dirTree segs,
    getEndpoints E compile module dirTree segs =
    getEndpoints E compile' module dirTree segs.
Proof.
  induction dirTree as [files dirs IH] using DirectoryStructureTree_induction.
  intros segs. simpl.
  destruct files as [|f fs].
  - simpl. apply forEachDirectory_congruence.
    eapply Forall_impl; [|exact IH]. intros nd Hnd s. apply Hnd.
  - rewrite !getEndpointFile_without_loader. simpl.
    apply forEachDirectory_congruence.
    eapply Forall_impl; [|exact IH]. intros nd Hnd s. apply Hnd.
Qed.

End LoaderFree.

(* ================================================================== *)
(** * The claims *)

Section Claims.

Variable Context : Type.
Variable E : Env Context.

(** ** Module resolution *)

(** C8.  The compiler of one entry, called with [isRoot = true], builds the
    module in memory (name ["."], the fixed root interface, the entry
    directory as entry and as filepath, the context and context filepath
    passed in) and compiles what the walker lists under the entry with it.
    No module configuration is read for it: the walk gives the same in
    the project without any module configuration file, whatever the
    delegated compilation is, and so does the whole call when no functions
    file exports a loader.  [getStructure] calls it so.  Called with
    [isRoot = false], as a delegating route file does, it asks the module
    resolver, whose module it uses and whose failure it returns. *)
Theorem root_module_is_synthesized :
  forall (fuel : nat) (entry : string) (context : Context)
         (contextFilepath : string) (segments : list Segment),
    let rootModule :=
      {| entry := entry;
         filepath := entry;
         context := context;
         contextFilepath := contextFilepath;
         instance := {| config_name := ".";
                        interface := CreateModuleInterface |} |} in
    let delegated :=
      match fuel with
      | O => fun _ _ _ _ => OutOfFuel
      | S fuel' => fun e c cf s => getComponents E fuel' e c cf s false
      end in
    getComponents E fuel entry context contextFilepath segments true =
      match result (getRouteFiles E entry) with
      | None =>
          Returned {| logs := logs (getRouteFiles E entry); result := None |}
      | Some files =>
          structure <- getEndpoints E delegated rootModule (tree files) segments ;;
          Returned {| logs := logs (getRouteFiles E entry) ++ logs structure;
                      result := result structure |}
      end
    /\ (forall compile dirTree,
          getEndpoints (withoutModuleConfigs E) compile rootModule dirTree segments =
          getEndpoints E compile rootModule dirTree segments)
    /\ ((forall p, Tooling_hasExportedLoader E p = false) ->
        getComponents (withoutModuleConfigs E) fuel entry context contextFilepath
          segments true =
        getComponents E fuel entry context contextFilepath segments true)
    /\ (forall server,
          result (getServerConfig E entry) = Some server ->
          getStructure E fuel entry =
            (c <- getComponents E fuel entry (server_context (server_instance server))
                    (server_filepath server) [] true ;;
             match result c with
             | None =>
                 Returned {| structure_logs := logs (getServerConfig E entry) ++ logs c;
                             structure_endpoints := None;
                             structure_server := None |}
             | Some endpoints =>
                 list <- flattenEndpoints (Some (Subtree endpoints)) ;;
                 Returned {| structure_logs := logs (getServerConfig E entry) ++ logs c;
                             structure_endpoints :=
                               Some {| endpoints_tree := endpoints;
                                       endpoints_list := list |};
                             structure_server := Some server |}
             end))
    /\ getComponents E fuel entry context contextFilepath segments false =
       (let m := getModuleConfig E entry context contextFilepath in
        match result m with
        | None => Returned {| logs := logs m; result := None |}
        | Some module =>
            let f := getRouteFiles E (entryOf module) in
            match result f with
            | None => Returned {| logs := logs m ++ logs f; result := None |}
            | Some files =>
                structure <- getEndpoints E delegated module (tree files) segments ;;
                Returned {| logs := (logs m ++ logs f) ++ logs structure;
                            result := result structure |}
            end
        end).
Proof.
  intros fuel entry context contextFilepath segments rootModule delegated.
  assert (Hroot : forall (E0 : Env Context),
            getComponents E0 fuel entry context contextFilepath segments true =
            match result (getRouteFiles E0 entry) with
            | None =>
                Returned {| logs := logs (getRouteFiles E0 entry); result := None |}
            | Some files =>
                structure <-
                  getEndpoints E0
                    (match fuel with
                     | O => fun _ _ _ _ => OutOfFuel
                     | S fuel' => fun e c cf s => getComponents E0 fuel' e c cf s false
                     end)
                    rootModule (tree files) segments ;;
                Returned {| logs := logs (getRouteFiles E0 entry) ++ logs structure;
                            result := result structure |}
            end)
    by (intros E0; destruct fuel; reflexivity).
  split; [|split; [|split; [|split]]].
  - apply Hroot.
  - intros compile dirTree. apply getEndpoints_reads_no_module_config.
  - intros Hnone. rewrite !Hroot.
    change (getRouteFiles (withoutModuleConfigs E) entry) with (getRouteFiles E entry).
    destruct (result (getRouteFiles E entry)) as [files|]; [|reflexivity].
    rewrite getEndpoints_reads_no_module_config.
    now rewrite (@getEndpoints_ignores_compile Context E Hnone)
      with (compile' := delegated).
  - intros server Hserver. unfold getStructure. now rewrite Hserver.
  - destruct fuel; reflexivity.
Qed.

Lemma exports_name (n : string) (l : list string) :
  existsb (String.eqb n) l = true <-> In n l.
Proof.
  rewrite existsb_exists. split.
  - intros (x & Hin & Hx). apply String.eqb_eq in Hx. now subst.
  - intros Hin. exists n. split; [exact Hin | apply String.eqb_refl].
Qed.

(** C9.  The context-schema flag is true exactly when the module file
    exports the context-schema name and has the TypeScript extension; with
    any other extension it is false, whatever the file exports.  It is the
    flag the resolver stores in the module structure. *)
Theorem context_schema_needs_typescript :
  forall filepath : string,
    (hasContextSchema E filepath = true <->
     In (CONTEXT_SCHEMA_TYPE_NAME E) (Tooling_getExportedVariableNames E filepath)
     /\ Files_getExtension E filepath = "TS"%string)
    /\ (Files_getExtension E filepath <> "TS"%string ->
        hasContextSchema E filepath = false)
    /\ (forall entry m,
          found (getModuleStructure E entry) = Some m ->
          structure_hasContextSchema m = hasContextSchema E (structure_filepath m)).
Proof.
  intros filepath. unfold hasContextSchema. repeat split.
  - apply andb_prop in H as [H _]. now apply exports_name.
  - apply andb_prop in H as [_ H]. now apply String.eqb_eq.
  - intros [Hin Hext]. apply andb_true_intro. split.
    + now apply exports_name.
    + now apply String.eqb_eq.
  - intros Hext. apply String.eqb_neq in Hext. rewrite Hext. apply andb_false_r.
  - intros entry m. unfold getModuleStructure.
    destruct (found (getFilepath E entry)) as [fp|]; [|discriminate].
    destruct (found (getInstance E fp)) as [i|]; [|discriminate].
    simpl. intros H. injection H as <-. reflexivity.
Qed.

(** C4.  When the server configuration is not resolved, [getStructure]
    returns its one diagnostic, an ERROR, and neither endpoints nor server;
    nothing below the root is compiled, whatever the fuel.  When the
    configuration file is missing, the diagnostic is the one that reports
    it. *)
Theorem missing_server_config_aborts :
  forall (fuel : nat) (entry : string),
    result (getServerConfig E entry) = None ->
    exists m : Message,
      isError m = true
      /\ getStructure E fuel entry =
         Returned {| structure_logs := [m];
                     structure_endpoints := None;
                     structure_server := None |}
      /\ (Files_getFilepathVariableExtension E entry
            (FILENAME_CONFIG_SERVER E) (SUPPORTED_FILE_EXTENSIONS E) = None ->
          m = missingServerConfig entry).
Proof.
  intros fuel entry. unfold getStructure, getServerConfig.
  destruct (Files_getFilepathVariableExtension E entry _ _) as [fp|].
  - destruct (Tooling_getDefaultExport_server E fp) as [msg|[i|]]; simpl;
      try discriminate; intros _;
      exists (unprocessedServerConfig fp); repeat split; discriminate.
  - simpl. intros _. exists (missingServerConfig entry). repeat split.
Qed.

(** ** The endpoint classifier *)

(** C1 (what the code does).  A delegating route file with a view file
    beside it yields the one WARN diagnostic and nothing else: the function
    returns before the loader is read, so the nested directory is not
    compiled and the route contributes no tree. *)
Theorem view_beside_loader_drops_module :
  forall (compile : string -> Context -> string -> list Segment ->
                    Outcome (Logged (EndpointTree Context)))
         (functionsFilepath view : string) (segments : list Segment),
    getEndpointFileByModule E compile functionsFilepath (Some view) segments =
      Returned {| logs := [viewWarning view]; result := None |}
    /\ level (viewWarning view) = Some WARN
    /\ content (viewWarning view) = Some "View will be ignored."%string.
Proof. intros. repeat split. Qed.

(** ** The flattener *)

Lemma get_member (V : Type) (o : list (string * V)) (k : string) (v : V) :
  NoDup (JsObject.keys o) -> In (k, v) o -> JsObject.get k o = Some v.
Proof.
  unfold JsObject.keys.
  induction o as [|[k0 v0] o IH]; intros Hnd Hin; simpl in *; [contradiction|].
  inversion Hnd as [|? ? Hnotin Hrest]; subst.
  destruct Hin as [Heq|Hin].
  - injection Heq as -> ->. now rewrite String.eqb_refl.
  - destruct (String.eqb k k0) eqn:Hk; [|now apply IH].
    apply String.eqb_eq in Hk. subst k0.
    exfalso. apply Hnotin. rewrite in_map_iff. now exists (k, v).
Qed.

(** The walk over the entries of a tree that has no [filepath] key. *)
Lemma flattenNode_entries (entries : list (string * EndpointNode Context)) :
  JsObject.has "filepath" entries = false ->
  flattenNode (Subtree entries) =
  (flattened <-
     collect (map (fun kv => flattenNode (snd kv))
                (filter (fun kv => negb (String.eqb (fst kv) ".")) entries)) ;;
   Returned ((match JsObject.get "." entries with Some dot => [dot] | None => [] end)
             ++ flattened)).
Proof.
  intros H. simpl. rewrite H. f_equal. clear H.
  induction entries as [|[k v] rest IH]; simpl; [reflexivity|].
  destruct (negb (String.eqb k ".")); simpl; [|apply IH].
  now rewrite IH.
Qed.

(** Reading the entries through [Object.keys] and [endpointTree[segment]]. *)
Lemma entries_through_keys (entries : list (string * EndpointNode Context))
    (keep : string -> bool) :
  NoDup (JsObject.keys entries) ->
  map (fun kv => flattenNode (snd kv)) (filter (fun kv => keep (fst kv)) entries) =
  map (fun segment => flattenEndpoints (JsObject.get segment entries))
    (filter keep (JsObject.keys entries)).
Proof.
  intros Hnd.
  assert (Hall : forall l, incl l entries ->
            map (fun kv => flattenNode (snd kv))
              (filter (fun kv => keep (fst kv)) l) =
            map (fun segment => flattenEndpoints (JsObject.get segment entries))
              (filter keep (JsObject.keys l))).
  { induction l as [|[k v] l IH]; intros Hincl; simpl; [reflexivity|].
    assert (Hl : incl l entries) by (intros x Hx; apply Hincl; now right).
    destruct (keep k); simpl.
    - rewrite (@get_member _ entries k v Hnd (Hincl (k, v) (or_introl eq_refl))).
      simpl.
      f_equal. now apply IH.
    - now apply IH. }
  apply Hall, incl_refl.
Qed.

(** C6 (as the code has it).  [flattenEndpoints] returns the empty list on
    [undefined] and on the empty tree; an endpoint whose [filepath] is a
    path, that is not the empty string, flattens to itself alone; a tree
    that is not taken for an endpoint (no [filepath] key) flattens to its
    ["."] entry, if it has one, followed by the flattened contents of its
    other keys, in key order, and it returns when each of them does. *)
Theorem flatten_walk :
  flattenEndpoints (Context := Context) None = Returned []
  /\ flattenEndpoints (Context := Context) (Some (Subtree [])) = Returned []
  /\ (forall e : Endpoint Context,
        JsString.truthy (endpoint_filepath e) = true ->
        flattenEndpoints (Some (Terminal e)) = Returned [Terminal e])
  /\ (forall entries : list (string * EndpointNode Context),
        NoDup (JsObject.keys entries) ->
        JsObject.has "filepath" entries = false ->
        flattenEndpoints (Some (Subtree entries)) =
        (flattened <-
           collect (map (fun segment => flattenEndpoints (JsObject.get segment entries))
                      (filter (fun segment => negb (String.eqb segment "."))
                         (JsObject.keys entries))) ;;
         Returned ((match JsObject.get "." entries with
                    | Some dot => [dot]
                    | None => []
                    end) ++ flattened))).
Proof.
  split; [reflexivity|]. split; [reflexivity|]. split.
  - intros e He. simpl. now rewrite He.
  - intros entries Hnd Hfile. unfold flattenEndpoints at 1.
    rewrite flattenNode_entries by exact Hfile.
    now rewrite (entries_through_keys entries
                   (fun segment => negb (String.eqb segment ".")) Hnd).
Qed.

(** ** Segments and keys *)

(** The loop keeps the keys it finds and writes the key of every directory
    whose compilation comes with a tree. *)
Lemma forEachDirectory_keeps recurse files segs dirs :
  forall (endpoints : EndpointTree Context) logs0 r t k,
    forEachDirectory recurse files segs dirs endpoints logs0 = Returned r ->
    result r = Some t ->
    JsObject.has k endpoints = true ->
    JsObject.has k t = true.
Proof.
  induction dirs as [|[n d] rest IH]; intros endpoints logs0 r t k H Ht Hk;
    simpl in H.
  - injection H as <-. simpl in Ht. now injection Ht as <-.
  - apply bind_returned in H as (l1 & _ & H).
    apply bind_returned in H as (c & _ & H).
    eapply IH; [exact H | exact Ht |].
    destruct (result c); [|exact Hk].
    rewrite has_set, Hk. apply orb_true_r.
Qed.

Lemma forEachDirectory_writes recurse files segs dirs :
  (forall d s c, recurse d s = Returned c -> exists t, result c = Some t) ->
  forall (endpoints : EndpointTree Context) logs0 r t n d,
    forEachDirectory recurse files segs dirs endpoints logs0 = Returned r ->
    result r = Some t ->
    In (n, d) dirs ->
    JsObject.has (segmentKey n) t = true.
Proof.
  intros Hsome.
  induction dirs as [|[n0 d0] rest IH]; intros endpoints logs0 r t n d H Ht Hin;
    simpl in H; [contradiction|].
  apply bind_returned in H as (l1 & _ & H).
  apply bind_returned in H as (c & Hc & H).
  destruct Hin as [Heq|Hin].
  - injection Heq as -> ->.
    eapply forEachDirectory_keeps; [exact H | exact Ht |].
    destruct (Hsome _ _ _ Hc) as [t' ->]. apply has_set_same.
  - eapply IH; eauto.
Qed.

(** C7 (as the code has it).  [getSegment] is defined on every directory
    name: [[id]] gives the name [id] with [isDynamic] true, the brackets
    stripped, and any other name gives itself with [isDynamic] false.  The
    tree key of a directory is ["/"] followed by the directory name as it is
    listed, brackets included, so two directories get the same key only when
    they have the same name. *)
Theorem segment_and_key :
  (forall x : string,
     getSegment ("[" ++ x ++ "]") = {| name := x; isDynamic := true |})
  /\ (forall id : string,
        ~ (exists x, id = ("[" ++ x ++ "]")%string) ->
        getSegment id = {| name := id; isDynamic := false |})
  /\ (forall compile module dirTree segs r n d,
        getEndpoints E compile module dirTree segs = Returned r ->
        In (n, d) (directories dirTree) ->
        exists t, result r = Some t
                  /\ JsObject.has ("/" ++ n)%string t = true)
  /\ (forall a b : string, ("/" ++ a)%string = ("/" ++ b)%string -> a = b).
Proof.
  repeat split.
  - intros x. unfold getSegment.
    assert (H : JsString.startsWith ("[" ++ x ++ "]") "["
                && JsString.endsWith ("[" ++ x ++ "]") "]" = true)
      by (apply isDynamic_brackets; now exists x).
    rewrite H. f_equal. apply slice_brackets.
  - intros id Hid. unfold getSegment.
    destruct (JsString.startsWith id "[" && JsString.endsWith id "]") eqn:H;
      [|reflexivity].
    exfalso. apply Hid. now apply isDynamic_brackets.
  - intros compile module dirTree segs r n d H Hin.
    destruct (getEndpoints_some _ _ _ _ _ H) as [t Ht].
    exists t. split; [exact Ht|].
    destruct dirTree as [files dirs]. simpl in H, Hin.
    apply bind_returned in H as (own & _ & H).
    eapply forEachDirectory_writes; eauto.
    intros d0 s c. apply getEndpoints_some.
  - intros a b. apply segmentKey_inj.
Qed.

(** [getComponents] stops at a module that is not resolved. *)
Lemma getComponents_module_failure fuel entry context contextFilepath segments
    isRoot (l : list Message) :
  getModule E entry context contextFilepath isRoot = {| logs := l; result := None |} ->
  getComponents E fuel entry context contextFilepath segments isRoot =
  Returned {| logs := l; result := None |}.
Proof.
  intros H.
  destruct fuel; unfold getComponents; fold (@getComponents Context);
    now rewrite H.
Qed.

(** ** Delegated modules *)

Section DelegatingRouteFile.

Variable compile :
  string -> Context -> string -> list Segment -> Outcome (Logged (EndpointTree Context)).
Variable module : ModuleConfigFile Context.
Variable f : RouteFile.
Variable fs : list RouteFile.
Variable dirs : list (string * DirectoryStructureTree).
Variable segs : list Segment.

(** The route file [f] is a delegated module without a view file: its
    functions file is [functions], it exports the loader [loaded] and its
    default export is [moduleLoader]. *)
Variable functions : string.
Variable loaded : LoadedModule.
Variable moduleLoader : ModuleInterface Context.
Hypothesis Hfunctions : getFunctionsFilepath E (filepath_absolute f) = Some functions.
Hypothesis Htruthy : JsString.truthy functions = true.
Hypothesis Hloader : Tooling_hasExportedLoader E functions = true.
Hypothesis Hview : getViewFilepath E (filepath_absolute f) = None.
Hypothesis Hloaded :
  result (Tooling_getExportedLoader E functions "Module Loader" ".load") = Some loaded.
Hypothesis Hexport :
  Tooling_getDefaultExport_loader E functions = Exported (Some moduleLoader).

Local Notation "'nestedEntry'" := (nestedEntryOf E functions loaded).
Local Notation "'branchLogs'" := (branchLogsOf E functions).

Lemma delegating_route_file components :
  compile nestedEntry (interface_context moduleLoader) functions segs
    = Returned components ->
  getEndpointFile E compile module (filepath_absolute f) segs =
  Returned
    {| logs := branchLogs (logs components);
       result := if hasError (branchLogs (logs components))
                 then None else result components |}.
Proof.
  intros Hc. unfold getEndpointFile, getEndpointFileByModule.
  rewrite Hfunctions, Htruthy, Hloader, Hview, Hloaded, Hexport. simpl.
  fold nestedEntry. rewrite Hc. simpl. fold (branchLogs (logs components)).
  now destruct (hasError (branchLogs (logs components))).
Qed.

(** A route file that contributes no tree leaves the level to its child
    directories. *)
Lemma level_without_contribution (l : list Message) :
  getEndpointFile E compile module (filepath_absolute f) segs =
    Returned {| logs := l; result := None |} ->
  (forall r,
     getEndpoints E compile module (DirTree [] dirs) segs = Returned r ->
     getEndpoints E compile module (DirTree (f :: fs) dirs) segs =
     Returned {| logs := l ++ logs r; result := result r |})
  /\ (forall r,
        getEndpoints E compile module (DirTree (f :: fs) dirs) segs = Returned r ->
        (exists rest, logs r = l ++ rest)
        /\ (exists t, result r = Some t
                      /\ forall k, JsObject.has k t = true ->
                                   exists n, In n (map fst dirs) /\ k = segmentKey n)).
Proof.
  intros Hown.
  rewrite getEndpoints_route_file with (own := {| logs := l; result := None |})
    by exact Hown.
  unfold ownTree. cbn [result logs]. split.
  - intros r Hr. rewrite getEndpoints_no_route_file in Hr.
    rewrite <- (app_nil_r l) at 1.
    now apply forEachDirectory_route_file.
  - intros r Hr. split.
    + eapply forEachDirectory_logs, Hr.
    + destruct (forEachDirectory_some _ _ _ _ _ _ Hr) as [t Ht].
      exists t. split; [exact Ht|]. intros k Hk.
      destruct (forEachDirectory_keys _ _ _ _ _ _ _ Hr Ht Hk) as [Hempty|Hn];
        [discriminate | exact Hn].
Qed.

(** C2.  When the nested compilation of a delegated module returns and its
    diagnostics or those of the type validation hold an ERROR, the classifier
    returns no tree and all the diagnostics of the branch: the loader's, the
    nested compilation's, the type validation's.  At the level of the route
    file they come first in the merged sequence, and the only keys of the
    level's tree are those of its child directories. *)
Theorem delegated_errors_suppress_tree :
  forall components : Logged (EndpointTree Context),
    compile nestedEntry (interface_context moduleLoader) functions segs
      = Returned components ->
    (exists m, In m (logs components
                     ++ Tooling_typeValidation E functions "Module Loader")
               /\ isError m = true) ->
    getEndpointFile E compile module (filepath_absolute f) segs =
      Returned {| logs := branchLogs (logs components); result := None |}
    /\ forall r,
         getEndpoints E compile module (DirTree (f :: fs) dirs) segs = Returned r ->
         (exists rest, logs r = branchLogs (logs components) ++ rest)
         /\ (exists t, result r = Some t
                       /\ forall k, JsObject.has k t = true ->
                                    exists n, In n (map fst dirs) /\ k = segmentKey n).
Proof.
  intros components Hc (m & Hin & Hm).
  assert (Herr : hasError (branchLogs (logs components)) = true).
  { unfold hasError, branchLogsOf. rewrite existsb_app. apply orb_true_iff. right.
    apply existsb_exists. now exists m. }
  assert (Hown : getEndpointFile E compile module (filepath_absolute f) segs =
                 Returned {| logs := branchLogs (logs components); result := None |}).
  { rewrite (delegating_route_file Hc). now rewrite Herr. }
  split; [exact Hown|].
  apply (proj2 (level_without_contribution Hown)).
Qed.

End DelegatingRouteFile.

Section MissingModuleConfig.

Variable fuel : nat.
Variable module : ModuleConfigFile Context.
Variable f : RouteFile.
Variable fs : list RouteFile.
Variable dirs : list (string * DirectoryStructureTree).
Variable segs : list Segment.
Variable functions : string.
Variable loaded : LoadedModule.
Variable moduleLoader : ModuleInterface Context.

Local Notation "'nestedEntry'" := (nestedEntryOf E functions loaded).
Local Notation "'branchLogs'" := (branchLogsOf E functions).
Local Notation "'missing'" := (missingModuleConfig E nestedEntry).
Local Notation "'compile'" :=
  (fun e c cf s => getComponents E fuel e c cf s false).

(** C5 (as the code has it).  The module configuration is read for the entry
    directory of a delegated module, not at every directory level: the walk
    over the child directories is the same in the project without any
    module configuration file.  A delegated module whose entry directory
    has no module configuration file: the resolver returns the one
    diagnostic that reports it, a record without a level, and no module;
    [getComponents] for that directory, not being the root, returns that
    diagnostic and no tree; the delegating route file contributes no tree;
    and the child directories beside it are compiled as they are without the
    route file, its diagnostics coming first. *)
Theorem missing_module_config_aborts_branch :
  getFunctionsFilepath E (filepath_absolute f) = Some functions ->
  JsString.truthy functions = true ->
  Tooling_hasExportedLoader E functions = true ->
  getViewFilepath E (filepath_absolute f) = None ->
  result (Tooling_getExportedLoader E functions "Module Loader" ".load")
    = Some loaded ->
  Tooling_getDefaultExport_loader E functions = Exported (Some moduleLoader) ->
  Files_getFilepathVariableExtension E nestedEntry
    (FILENAME_CONFIG_MODULE E) (SUPPORTED_FILE_EXTENSIONS E) = None ->
  (forall anyCompile anyModule dirTree anySegments,
     getEndpoints (withoutModuleConfigs E) anyCompile anyModule dirTree anySegments =
     getEndpoints E anyCompile anyModule dirTree anySegments)
  /\ getFilepath E nestedEntry = {| errors := [missing]; found := None |}
  /\ level missing = None
  /\ text missing = "Module config file could not be found."%string
  /\ getModule E nestedEntry (interface_context moduleLoader) functions false =
     {| logs := [missing]; result := None |}
  /\ getComponents E fuel nestedEntry (interface_context moduleLoader) functions
       segs false =
     Returned {| logs := [missing]; result := None |}
  /\ getEndpointFile E compile module (filepath_absolute f) segs =
     Returned {| logs := branchLogs [missing]; result := None |}
  /\ forall r,
       getEndpoints E compile module (DirTree [] dirs) segs = Returned r ->
       getEndpoints E compile module (DirTree (f :: fs) dirs) segs =
       Returned {| logs := branchLogs [missing] ++ logs r; result := result r |}.
Proof.
  intros Hfunctions Htruthy Hloader Hview Hloaded Hexport Hmissing.
  assert (Hfile : getFilepath E nestedEntry = {| errors := [missing]; found := None |}).
  { unfold getFilepath. now rewrite Hmissing. }
  assert (Hmodule :
            getModule E nestedEntry (interface_context moduleLoader) functions false =
            {| logs := [missing]; result := None |}).
  { unfold getModule, getModuleConfig, getModuleStructure. now rewrite Hfile. }
  assert (Hcomponents :
            getComponents E fuel nestedEntry (interface_context moduleLoader)
              functions segs false =
            Returned {| logs := [missing]; result := None |}).
  { now rewrite getComponents_module_failure with (l := [missing]). }
  assert (Hown : getEndpointFile E compile module (filepath_absolute f) segs =
                 Returned {| logs := branchLogs [missing]; result := None |}).
  { rewrite delegating_route_file
      with (functions := functions) (loaded := loaded) (moduleLoader := moduleLoader)
           (components := {| logs := [missing]; result := None |}); trivial.
    simpl. now destruct (hasError _). }
  split; [intros; apply getEndpoints_reads_no_module_config|].
  repeat split; trivial.
  apply (proj1 (@level_without_contribution compile module f fs dirs segs _ Hown)).
Qed.

End MissingModuleConfig.

(** ** A route file and its child directories *)

Section RouteFileAndDirectories.

Variable compile :
  string -> Context -> string -> list Segment -> Outcome (Logged (EndpointTree Context)).
Variable module : ModuleConfigFile Context.
Variable f : RouteFile.
Variable fs : list RouteFile.
Variable dirs : list (string * DirectoryStructureTree).
Variable segs : list Segment.
Variable own : Logged (EndpointTree Context).

Local Notation "'child'" := (getEndpoints E compile module).

(** The directory names are the keys of an object, hence distinct; the route
    file is classified; every child directory is compiled. *)
Hypothesis Hnames : NoDup (map fst dirs).
Hypothesis Hown :
  getEndpointFile E compile module (filepath_absolute f) segs = Returned own.
Hypothesis Hchildren :
  forall nd, In nd dirs ->
    exists r, child (snd nd) (segs ++ [getSegment (fst nd)]) = Returned r.

Lemma child_returns n d :
  In (n, d) dirs ->
  exists c ct, child d (segs ++ [getSegment n]) = Returned c /\ result c = Some ct.
Proof.
  intros Hin. destruct (Hchildren _ Hin) as [c Hc]. simpl in Hc.
  destruct (getEndpoints_some _ _ _ _ _ Hc) as [ct Hct].
  now exists c, ct.
Qed.

(** C3.  At a level whose route file contributed a tree, the diagnostics are
    those of the route file followed, directory by directory in listing
    order, by what the directory adds.  For a directory whose key
    ["/<name>"] the route file's tree holds, that is exactly one WARN
    diagnostic followed by the diagnostics of the directory's own
    compilation, and the key ends up holding the subtree compiled from the
    directory: compilation goes on and the last writer wins. *)
Theorem overlap_warned_once_child_wins :
  forall tree0 : EndpointTree Context,
    result own = Some tree0 ->
    exists T : EndpointTree Context,
      getEndpoints E compile module (DirTree (f :: fs) dirs) segs =
        Returned
          {| logs := logs own
                     ++ flat_map (directoryLogs child (f :: fs) segs (ownTree own)) dirs;
             result := Some T |}
      /\ forall n d,
           In (n, d) dirs ->
           JsObject.has ("/" ++ n)%string tree0 = true ->
           exists c ct,
             child d (segs ++ [getSegment n]) = Returned c
             /\ result c = Some ct
             /\ directoryLogs child (f :: fs) segs (ownTree own) (n, d) =
                overlapWarning segs (filepath_absolute f) :: logs c
             /\ level (overlapWarning segs (filepath_absolute f)) = Some WARN
             /\ JsObject.get ("/" ++ n)%string T = Some (Subtree ct).
Proof.
  intros tree0 Htree.
  exists (fold_left (directoryWrite child segs) dirs (ownTree own)).
  split; [now apply getEndpoints_level|].
  intros n d Hin Hhas.
  destruct (child_returns _ _ Hin) as (c & ct & Hc & Hct).
  exists c, ct. repeat split; trivial.
  - unfold directoryLogs, childCall, ownTree. simpl fst. simpl snd.
    rewrite Htree, has_spread. unfold segmentKey. rewrite Hhas, orb_true_r.
    now rewrite Hc.
  - apply write_member with (d := d); trivial.
    unfold childCall. simpl. now rewrite Hc.
Qed.

(** The compilation of a directory by [getEndpoints] always comes with a
    tree, an empty one when the directory contributes nothing.  So at a
    level the key of every child directory is written: it ends up holding
    the subtree compiled from the directory, whether or not the route
    file's tree held the key before; and the diagnostics of the child are
    part of the level's sequence. *)
Theorem child_key_always_written :
  (forall dirTree s c,
     child dirTree s = Returned c -> exists ct, result c = Some ct)
  /\ exists (L : list Message) (T : EndpointTree Context),
       getEndpoints E compile module (DirTree (f :: fs) dirs) segs =
         Returned {| logs := L; result := Some T |}
       /\ forall n d,
            In (n, d) dirs ->
            exists c ct before after,
              child d (segs ++ [getSegment n]) = Returned c
              /\ result c = Some ct
              /\ JsObject.get ("/" ++ n)%string T = Some (Subtree ct)
              /\ L = before ++ logs c ++ after.
Proof.
  split; [intros dirTree s c; apply getEndpoints_some|].
  exists (logs own ++ flat_map (directoryLogs child (f :: fs) segs (ownTree own)) dirs),
         (fold_left (directoryWrite child segs) dirs (ownTree own)).
  split; [now apply getEndpoints_level|].
  intros n d Hin.
  destruct (child_returns _ _ Hin) as (c & ct & Hc & Hct).
  destruct (flat_map_member (directoryLogs child (f :: fs) segs (ownTree own))
              _ _ Hin) as (b & a & Hflat).
  exists c, ct.
  exists (logs own ++ b
          ++ (if JsObject.has (segmentKey n) (ownTree own)
              then [overlapWarning segs (filepath_absolute f)] else [])), a.
  repeat split; trivial.
  - apply write_member with (d := d); trivial.
    unfold childCall. simpl. now rewrite Hc.
  - rewrite Hflat. unfold directoryLogs, childCall. simpl fst. simpl snd.
    rewrite Hc. simpl logsOf. now rewrite <- !app_assoc.
Qed.

End RouteFileAndDirectories.

(** ** A child directory that yields no subtree *)



End Claims.

(* ================================================================== *)
(** * The claims on the sample projects *)

(** C4 on [Sample.noServer]: no server configuration file in [/app]. *)
Lemma missing_server_config_aborts_witness :
  result (getServerConfig (Sample.envOf Sample.noServer) "/app") = None
  /\ getStructure (Sample.envOf Sample.noServer) 0 "/app" =
     Returned {| structure_logs := [missingServerConfig "/app"];
                 structure_endpoints := None;
                 structure_server := None |}.
Proof.
  split; [reflexivity|].
  destruct (missing_server_config_aborts (Sample.envOf Sample.noServer) 0 "/app"
              eq_refl) as (m & _ & Hs & Hm).
  rewrite Hs, (Hm eq_refl). reflexivity.
Defined.

(** C6 on a tree with a ["."] entry and one child. *)
Lemma flatten_walk_witness :
  let entries :=
    [(".", Terminal (Sample.endpointAt "/app/index.ts" []));
     ("/a", Subtree [(".", Terminal (Sample.endpointAt "/app/a/index.ts"
                                       [getSegment "a"]))])] in
  NoDup (JsObject.keys entries)
  /\ JsObject.has "filepath" entries = false
  /\ JsString.truthy (endpoint_filepath (Sample.endpointAt "/app/index.ts" [])) = true
  /\ flattenEndpoints (Some (Terminal (Sample.endpointAt "/app/index.ts" []))) =
     Returned [Terminal (Sample.endpointAt "/app/index.ts" [])]
  /\ flattenEndpoints (Some (Subtree entries)) =
     Returned [Terminal (Sample.endpointAt "/app/index.ts" []);
               Terminal (Sample.endpointAt "/app/a/index.ts" [getSegment "a"])].
Proof.
  intros entries.
  assert (Hnd : NoDup (JsObject.keys entries)).
  { repeat constructor; simpl; intuition discriminate. }
  split; [exact Hnd|]. split; [reflexivity|]. split; [reflexivity|].
  destruct (flatten_walk string) as (_ & _ & Hterminal & H).
  split; [exact (Hterminal (Sample.endpointAt "/app/index.ts" []) eq_refl)|].
  rewrite (H entries Hnd eq_refl). reflexivity.
Defined.

(** C6, the claim refuted on a view without a functions file, an endpoint
    whose [filepath] is the empty string: alone or under the key of a
    directory, it is not returned, the call raises. *)
Lemma flatten_raises_on_empty_filepath :
  let e : Endpoint string :=
    {| endpoint_filepath := EmptyString;
       viewFilepath := Some "/app/a/index.html"%string;
       methods := ["GET"%string];
       endpoint_module := Sample.rootModule;
       segments := [getSegment "a"] |} in
  flattenEndpoints (Some (Terminal e)) = Raised
  /\ flattenEndpoints (Some (Terminal e)) <> Returned [Terminal e]
  /\ flattenEndpoints (Some (Subtree [("/a"%string, Terminal e)])) = Raised.
Proof. intros e. split; [reflexivity|]. split; [discriminate | reflexivity]. Defined.

(** C9 on [Sample.delegated]: a TypeScript and a JavaScript module file that
    both export the schema name. *)
Lemma context_schema_needs_typescript_witness :
  let E := Sample.envOf Sample.delegated in
  (In (CONTEXT_SCHEMA_TYPE_NAME E)
      (Tooling_getExportedVariableNames E "/app/m0/sherpa.module.js")
   /\ Files_getExtension E "/app/m0/sherpa.module.js" <> "TS"%string)
  /\ hasContextSchema E "/app/m1/sherpa.module.ts" = true
  /\ hasContextSchema E "/app/m0/sherpa.module.js" = false.
Proof.
  intros E.
  assert (Hjs : Files_getExtension E "/app/m0/sherpa.module.js" <> "TS"%string)
    by discriminate.
  split; [split; [vm_compute; auto | exact Hjs]|]. split.
  - apply (proj1 (context_schema_needs_typescript E "/app/m1/sherpa.module.ts")).
    split; [vm_compute; auto | reflexivity].
  - apply (proj1 (proj2 (context_schema_needs_typescript E
                           "/app/m0/sherpa.module.js"))), Hjs.
Defined.

(** C7 on [Sample.brackets]: the directories [[id]] and [id]. *)
Lemma segment_and_key_witness :
  let E := Sample.envOf Sample.brackets in
  let level :=
    getEndpoints E (Sample.delegation Sample.brackets) Sample.rootModule
      (DirTree [] [("[id]", DirTree [Sample.route "/app/[id]/index.ts"] []);
                   ("id", DirTree [Sample.route "/app/id/index.ts"] [])]) [] in
  getSegment "[id]" = {| name := "id"; isDynamic := true |}
  /\ getSegment "id" = {| name := "id"; isDynamic := false |}
  /\ (exists t, resultOf level = Some t
                /\ JsObject.has "/[id]" t = true /\ JsObject.has "/id" t = true).
Proof.
  intros E level.
  destruct (segment_and_key E) as (Hdynamic & Hstatic & Hkey & _).
  split; [|split].
  - exact (Hdynamic "id"%string).
  - apply Hstatic. intros [x Hx]. discriminate Hx.
  - destruct (Hkey (Sample.delegation Sample.brackets) Sample.rootModule
                (DirTree [] [("[id]", DirTree [Sample.route "/app/[id]/index.ts"] []);
                             ("id", DirTree [Sample.route "/app/id/index.ts"] [])])
                [] _ "[id]"%string _ eq_refl (or_introl eq_refl))
      as (t & Ht & Hhas).
    exists t. split; [exact Ht|]. split; [exact Hhas|].
    injection Ht as <-. reflexivity.
Defined.

(** C7, the claim refuted on [Sample.brackets]: the key of the directory
    [[id]] keeps the brackets, it is not ["/"] followed by the unwrapped name,
    and it differs from the key of the directory [id]. *)
Lemma bracket_key_keeps_brackets :
  let E := Sample.envOf Sample.brackets in
  let level :=
    getEndpoints E (Sample.delegation Sample.brackets) Sample.rootModule
      (DirTree [] [("[id]", DirTree [Sample.route "/app/[id]/index.ts"] []);
                   ("id", DirTree [Sample.route "/app/id/index.ts"] [])]) [] in
  option_map (@JsObject.keys _) (resultOf level) = Some ["/[id]"; "/id"]%string
  /\ segmentKey "[id]" <> ("/" ++ name (getSegment "[id]"))%string
  /\ segmentKey "[id]" <> segmentKey "id".
Proof.
  intros E level. split; [reflexivity|]. split; discriminate.
Defined.

(** C1 on [Sample.delegatedWithView] and [Sample.delegated], which differ by
    the view file only: without the view the delegated module gives the root
    the keys [/x] and [/y]; with it the root keeps the key of its own child
    directory alone, and the one diagnostic is the WARN about the view. *)
Lemma view_beside_loader_on_sample :
  let level P :=
    getEndpoints (Sample.envOf P) (Sample.delegation P) Sample.rootModule
      Sample.rootLevel [] in
  option_map (@JsObject.keys _) (resultOf (level Sample.delegated))
    = Some ["/x"; "/y"]%string
  /\ option_map (@JsObject.keys _) (resultOf (level Sample.delegatedWithView))
     = Some ["/x"]%string
  /\ logsOf (level Sample.delegatedWithView) = [viewWarning "/app/index.html"]
  /\ hasError (logsOf (level Sample.delegatedWithView)) = false.
Proof. intros level. split; [|split; [|split]]; reflexivity. Qed.

(** C2 on [Sample.delegatedIllTyped]: the nested compilation succeeds and
    the type validation reports an error. *)
Lemma delegated_errors_suppress_tree_witness :
  let P := Sample.delegatedIllTyped in
  let E := Sample.envOf P in
  isError Sample.typeError = true
  /\ getEndpointFile E (Sample.delegation P) Sample.rootModule "/app/index.ts" [] =
     Returned {| logs := [Sample.typeError]; result := None |}
  /\ option_map (@JsObject.keys _)
       (resultOf (getEndpoints E (Sample.delegation P) Sample.rootModule
                    Sample.rootLevel []))
     = Some ["/x"]%string.
Proof.
  intros P E. split; [reflexivity|].
  edestruct (@delegated_errors_suppress_tree string E (Sample.delegation P)
               Sample.rootModule (Sample.route "/app/index.ts") []
               [("x"%string, Sample.directoryX)] []
               "/app/index.ts"%string {| loaded_filepath := "m1" |}
               {| interface_context := "m1-context"%string |}
               eq_refl eq_refl eq_refl eq_refl eq_refl eq_refl)
    as [Hfile Hlevel].
  - reflexivity.
  - exists Sample.typeError. split; [left; reflexivity | reflexivity].
  - split; [exact Hfile | reflexivity].
Defined.

(** C3 on [Sample.delegated]: the delegated module of the root contributes
    the key [/x], and the root has a child directory [x]. *)
Lemma overlap_warned_once_child_wins_witness :
  let P := Sample.delegated in
  let E := Sample.envOf P in
  let level :=
    getEndpoints E (Sample.delegation P) Sample.rootModule Sample.rootLevel [] in
  let child :=
    getEndpoints E (Sample.delegation P) Sample.rootModule Sample.directoryX
      [getSegment "x"] in
  NoDup (map fst (directories Sample.rootLevel))
  /\ logsOf level = [overlapWarning [] "/app/index.ts"]
  /\ (exists T ct, resultOf level = Some T /\ resultOf child = Some ct
                   /\ JsObject.get "/x" T = Some (Subtree ct)).
Proof.
  intros P E level child.
  assert (Hnd : NoDup (map fst (directories Sample.rootLevel))).
  { repeat constructor. simpl. tauto. }
  split; [exact Hnd|].
  edestruct (@overlap_warned_once_child_wins string E (Sample.delegation P)
               Sample.rootModule (Sample.route "/app/index.ts") []
               [("x"%string, Sample.directoryX)] [] _ Hnd eq_refl)
    as (T & Hlevel & Hkey).
  - intros nd [<-|[]]. eexists. reflexivity.
  - reflexivity.
  - destruct (Hkey "x"%string Sample.directoryX (or_introl eq_refl) eq_refl)
      as (c & ct & Hc & Hct & _ & _ & Hget).
    split; [reflexivity|].
    exists T, ct. split; [|split].
    + unfold level, Sample.rootLevel. now rewrite Hlevel.
    + unfold child. simpl app in Hc. now rewrite Hc.
    + exact Hget.
Defined.

(** C5 on [Sample.delegatedNoConfig]: the module directory [/app/m1] has no
    module-configuration file. *)
Lemma missing_module_config_aborts_branch_witness :
  let P := Sample.delegatedNoConfig in
  let E := Sample.envOf P in
  Files_getFilepathVariableExtension E "/app/m1"
    (FILENAME_CONFIG_MODULE E) (SUPPORTED_FILE_EXTENSIONS E) = None
  /\ level (missingModuleConfig E "/app/m1") = None
  /\ getComponents E 0 "/app/m1" "m1-context" "/app/index.ts" [] false =
     Returned {| logs := [missingModuleConfig E "/app/m1"]; result := None |}
  /\ getEndpoints E (Sample.delegation P) Sample.rootModule Sample.rootLevel [] =
     Returned
       {| logs := [missingModuleConfig E "/app/m1"];
          result :=
            resultOf (getEndpoints E (Sample.delegation P) Sample.rootModule
                        (DirTree [] [("x"%string, Sample.directoryX)]) []) |}.
Proof.
  intros P E. split; [reflexivity|].
  destruct (@missing_module_config_aborts_branch string E 0
              Sample.rootModule (Sample.route "/app/index.ts") []
              [("x"%string, Sample.directoryX)] []
              "/app/index.ts"%string {| loaded_filepath := "m1" |}
              {| interface_context := "m1-context"%string |}
              eq_refl eq_refl eq_refl eq_refl eq_refl eq_refl eq_refl)
    as (_ & _ & Hnolevel & _ & _ & Hcomponents & _ & Hlevel).
  split; [exact Hnolevel|].
  split; [exact Hcomponents|].
  exact (Hlevel _ eq_refl).
Defined.

(** C5, the claim refuted on [Sample.simple]: the child directory [/app/a]
    is not the root and has no module configuration file; no module is
    resolved for it, the compilation reports nothing and the directory
    contributes its endpoint.  And the record that reports a missing module
    configuration is not of level ERROR, it has no level. *)
Lemma child_directory_needs_no_module_config :
  let E := Sample.envOf Sample.simple in
  Files_getFilepathVariableExtension E "/app/a"
    (FILENAME_CONFIG_MODULE E) (SUPPORTED_FILE_EXTENSIONS E) = None
  /\ getComponents E 0 "/app" "server" "/app/sherpa.server.ts" [] true =
     Returned
       {| logs := [];
          result :=
            Some [("/a"%string,
                   Subtree [("."%string,
                             Terminal (Sample.endpointAt "/app/a/index.ts"
                                         [getSegment "a"]))])] |}
  /\ level (missingModuleConfig E "/app/a") <> Some ERROR.
Proof. intros E. split; [reflexivity|]. split; [reflexivity | discriminate]. Defined.

(** C8 on [Sample.simple]: [/app] has a server configuration and no module
    configuration file. *)
Lemma root_module_is_synthesized_witness :
  let E := Sample.envOf Sample.simple in
  let server :=
    {| server_filepath := "/app/sherpa.server.ts"%string;
       server_instance := {| server_context := "server"%string |} |} in
  let a := Terminal (Sample.endpointAt "/app/a/index.ts" [getSegment "a"]) in
  result (getServerConfig E "/app") = Some server
  /\ Files_getFilepathVariableExtension E "/app"
       (FILENAME_CONFIG_MODULE E) (SUPPORTED_FILE_EXTENSIONS E) = None
  /\ (forall p, Tooling_hasExportedLoader E p = false)
  /\ getComponents (withoutModuleConfigs E) 0 "/app" "server" "/app/sherpa.server.ts"
       [] true =
     getComponents E 0 "/app" "server" "/app/sherpa.server.ts" [] true
  /\ getStructure E 0 "/app" =
     Returned {| structure_logs := [];
                 structure_endpoints :=
                   Some {| endpoints_tree := [("/a"%string, Subtree [("."%string, a)])];
                           endpoints_list := [a] |};
                 structure_server := Some server |}.
Proof.
  intros E server a. split; [reflexivity|]. split; [reflexivity|].
  split; [reflexivity|].
  destruct (root_module_is_synthesized E 0 "/app" "server" "/app/sherpa.server.ts" [])
    as (_ & _ & Hsame & Hstructure & _).
  split; [exact (Hsame (fun p => eq_refl))|].
  rewrite (Hstructure server eq_refl). reflexivity.
Defined.

(** On [Sample.delegatedBrokenChild]: the child directory [x] of the root
    has a route file whose loader does not parse. *)
Lemma child_key_always_written_witness :
  let P := Sample.delegatedBrokenChild in
  let E := Sample.envOf P in
  let level :=
    getEndpoints E (Sample.delegation P) Sample.rootModule Sample.rootLevel [] in
  let child :=
    getEndpoints E (Sample.delegation P) Sample.rootModule Sample.directoryX
      [getSegment "x"] in
  NoDup (map fst (directories Sample.rootLevel))
  /\ (exists T ct, resultOf level = Some T /\ resultOf child = Some ct
                   /\ JsObject.get "/x" T = Some (Subtree ct))
  /\ (exists before after, logsOf level = before ++ logsOf child ++ after).
Proof.
  intros P E level child.
  assert (Hnd : NoDup (map fst (directories Sample.rootLevel))).
  { repeat constructor. simpl. tauto. }
  split; [exact Hnd|].
  edestruct (@child_key_always_written string E (Sample.delegation P)
               Sample.rootModule (Sample.route "/app/index.ts") []
               [("x"%string, Sample.directoryX)] [] _ Hnd eq_refl)
    as (_ & L & T & Hlevel & Hkey).
  - intros nd [<-|[]]. eexists. reflexivity.
  - destruct (Hkey "x"%string Sample.directoryX (or_introl eq_refl))
      as (c & ct & before & after & Hc & Hct & Hget & HL).
    simpl app in Hc.
    split.
    + exists T, ct. split; [|split].
      * unfold level, Sample.rootLevel. now rewrite Hlevel.
      * unfold child. now rewrite Hc.
      * exact Hget.
    + exists before, after.
      unfold level, child, Sample.rootLevel. now rewrite Hlevel, Hc.
Defined.


(* ================================================================== *)
(** * Further properties of the code *)

(** ** Segments *)

(** X1.  The directory name is read back from its segment: the name between
    brackets when the segment is dynamic, the name itself otherwise.  So two
    directory names with the same segment are the same name. *)
Theorem getSegment_round_trip :
  (forall id : string,
     (if isDynamic (getSegment id)
      then ("[" ++ name (getSegment id) ++ "]")%string
      else name (getSegment id)) = id)
  /\ (forall a b : string, getSegment a = getSegment b -> a = b).
Proof.
  assert (Hback : forall id : string,
            (if isDynamic (getSegment id)
             then ("[" ++ name (getSegment id) ++ "]")%string
             else name (getSegment id)) = id).
  { intros id. unfold getSegment. simpl.
    destruct (JsString.startsWith id "[" && JsString.endsWith id "]") eqn:H;
      [|reflexivity].
    apply isDynamic_brackets in H as [x ->].
    change ("[" ++ x ++ "]")%string with (String "[" (x ++ "]")).
    now rewrite slice_brackets. }
  split; [exact Hback|].
  intros a b Hab. rewrite <- (Hback a), <- (Hback b). now rewrite Hab.
Qed.

Lemma getSegment_round_trip_witness :
  getSegment "[id]" = getSegment ("[" ++ "id" ++ "]") /\ "[id]"%string = ("[" ++ "id" ++ "]")%string.
Proof.
  split; [reflexivity|].
  exact (proj2 getSegment_round_trip "[id]"%string ("[" ++ "id" ++ "]")%string eq_refl).
Defined.

(** ** The module resolver *)

Section ResolverFacts.

Variable Context : Type.
Variable E : Env Context.

(** X2.  A resolved module comes without diagnostics, from the configuration file
    that was located and whose default export loaded to a value.  The
    resolver returns neither a module nor a diagnostic exactly when the file
    is located and its default export is [undefined]: the load does not
    throw, so nothing is reported. *)
Theorem getModuleStructure_outcomes :
  forall entry : string,
    (forall m,
       found (getModuleStructure E entry) = Some m ->
       errors (getModuleStructure E entry) = []
       /\ found (getFilepath E entry) = Some (structure_filepath m)
       /\ JsString.truthy (structure_filepath m) = true
       /\ Tooling_getDefaultExport_config E (structure_filepath m)
          = Exported (Some (structure_instance m)))
    /\ (found (getModuleStructure E entry) = None
        /\ errors (getModuleStructure E entry) = []
        <-> exists fp, found (getFilepath E entry) = Some fp
                       /\ Tooling_getDefaultExport_config E fp = Exported None).
Proof.
  intros entry. unfold getModuleStructure, getFilepath, getInstance.
  destruct (Files_getFilepathVariableExtension E entry _ _) as [fp|]; simpl.
  - destruct (JsString.truthy fp) eqn:Htruthy; simpl.
    + destruct (Tooling_getDefaultExport_config E fp) as [msg|[i|]] eqn:Hexp; simpl.
      * split; [discriminate|]. split; [intros [_ H]; discriminate H|].
        intros (fp' & Hfp & H). injection Hfp as <-. congruence.
      * split.
        -- intros m Hm. injection Hm as <-. simpl. now rewrite Hexp.
        -- split; [intros [H _]; discriminate H|].
           intros (fp' & Hfp & H). injection Hfp as <-. congruence.
      * split; [discriminate|]. split; [|tauto].
        intros _. now exists fp.
    + split; [discriminate|]. split; [intros [_ H]; discriminate H|].
      intros (fp' & Hfp & _). discriminate Hfp.
  - split; [discriminate|]. split; [intros [_ H]; discriminate H|].
    intros (fp' & Hfp & _). discriminate Hfp.
Qed.

End ResolverFacts.

(** On [/app/m1] of [Sample.delegated], with its default export and without
    one. *)
Lemma getModuleStructure_outcomes_witness :
  (exists m, found (getModuleStructure (Sample.envOf Sample.delegated) "/app/m1") = Some m
             /\ structure_filepath m = "/app/m1/sherpa.module.ts"%string
             /\ errors (getModuleStructure (Sample.envOf Sample.delegated) "/app/m1") = [])
  /\ getModuleStructure (SampleMore.withoutDefaultExport Sample.delegated) "/app/m1"
     = {| errors := []; found := None |}.
Proof.
  split.
  - eexists. split; [reflexivity|]. split; [reflexivity|].
    exact (proj1 (proj1 (getModuleStructure_outcomes
                           (Sample.envOf Sample.delegated) "/app/m1") _ eq_refl)).
  - destruct (proj2 (proj2 (getModuleStructure_outcomes
                (SampleMore.withoutDefaultExport Sample.delegated) "/app/m1"))
                (ex_intro _ "/app/m1/sherpa.module.ts"%string (conj eq_refl eq_refl)))
      as [Hfound Herrors].
    destruct (getModuleStructure _ _) as [errs fnd]. simpl in *. now subst.
Defined.

(** ** The endpoint classifier *)

Section ClassifierFacts.

Variable Context : Type.
Variable E : Env Context.
Variable compile :
  string -> Context -> string -> list Segment -> Outcome (Logged (EndpointTree Context)).

(** X3.  A delegated module that is given a tree has no view file beside it, a
    loader and a default export that loaded, a nested compilation that
    returned that very tree, and no ERROR among its diagnostics, which are
    those of the loader, of the nested compilation and of the type
    validation. *)
Theorem delegated_tree_has_no_error :
  forall functionsFilepath view segments r t,
    getEndpointFileByModule E compile functionsFilepath view segments = Returned r ->
    result r = Some t ->
    view = None
    /\ hasError (logs r) = false
    /\ exists loaded moduleLoader components,
         result (Tooling_getExportedLoader E functionsFilepath "Module Loader" ".load")
           = Some loaded
         /\ Tooling_getDefaultExport_loader E functionsFilepath
            = Exported (Some moduleLoader)
         /\ compile (nestedEntryOf E functionsFilepath loaded)
              (interface_context moduleLoader) functionsFilepath segments
            = Returned components
         /\ result components = Some t
         /\ logs r = branchLogsOf E functionsFilepath (logs components).
Proof.
  intros functionsFilepath view segments r t H Ht.
  unfold getEndpointFileByModule in H.
  destruct view as [v|].
  { injection H as <-. discriminate Ht. }
  split; [reflexivity|].
  destruct (result (Tooling_getExportedLoader E functionsFilepath _ _))
    as [loaded|] eqn:Hloaded.
  2: { injection H as <-. discriminate Ht. }
  destruct (Tooling_getDefaultExport_loader E functionsFilepath)
    as [[|msg]|[moduleLoader|]] eqn:Hexport.
  { discriminate H. }
  { injection H as <-. discriminate Ht. }
  2: discriminate H.
  apply bind_returned in H as (components & Hc & H).
  fold (branchLogsOf E functionsFilepath (logs components)) in H.
  destruct (hasError (branchLogsOf E functionsFilepath (logs components))) eqn:Herr.
  { injection H as <-. discriminate Ht. }
  injection H as <-. simpl in Ht |- *.
  split; [exact Herr|].
  exists loaded, moduleLoader, components. repeat split; trivial.
Qed.

(** X4.  A route file whose functions file is missing or has no loader export is
    a declarative endpoint: the classifier returns what the declarative
    builder returns for the two resolved files, and the nested compiler is
    not called. *)
Theorem declarative_route_file :
  forall module filepath segments,
    (forall functions,
       getFunctionsFilepath E filepath = Some functions ->
       Tooling_hasExportedLoader E functions = false) ->
    getEndpointFile E compile module filepath segments =
      Returned (getEndpointFileByDeclaration E module
                  (getFunctionsFilepath E filepath) (getViewFilepath E filepath)
                  segments)
    /\ forall compile',
         getEndpointFile E compile' module filepath segments =
         getEndpointFile E compile module filepath segments.
Proof.
  intros module filepath segments Hloader.
  assert (Hany : forall c,
            getEndpointFile E c module filepath segments =
            Returned (getEndpointFileByDeclaration E module
                        (getFunctionsFilepath E filepath) (getViewFilepath E filepath)
                        segments)).
  { intros c. unfold getEndpointFile.
    destruct (getFunctionsFilepath E filepath) as [functions|]; [|reflexivity].
    rewrite (Hloader functions eq_refl), andb_false_r. reflexivity. }
  split; [apply Hany|]. intros compile'. now rewrite !Hany.
Qed.

End ClassifierFacts.

(** ** The compiler of one entry *)

Section CompilerFacts.

Variable Context : Type.
Variable E : Env Context.

Lemma getComponents_unfold fuel entry context contextFilepath segments isRoot :
  getComponents E fuel entry context contextFilepath segments isRoot =
  let m := getModule E entry context contextFilepath isRoot in
  match result m with
  | None => Returned {| logs := logs m; result := None |}
  | Some module =>
      let f := getRouteFiles E (entryOf module) in
      match result f with
      | None => Returned {| logs := logs m ++ logs f; result := None |}
      | Some files =>
          structure <-
            getEndpoints E
              (match fuel with
               | O => fun _ _ _ _ => OutOfFuel
               | S fuel' => fun e c cf s => getComponents E fuel' e c cf s false
               end)
              module (tree files) segments ;;
          Returned {| logs := (logs m ++ logs f) ++ logs structure;
                      result := result structure |}
      end
  end.
Proof. destruct fuel; reflexivity. Qed.

(** The module of a level has the entry directory of the level as entry. *)
Lemma getModule_entry entry context contextFilepath isRoot module :
  result (getModule E entry context contextFilepath isRoot) = Some module ->
  entryOf module = entry.
Proof.
  unfold getModule, getModuleConfig. destruct isRoot; simpl.
  - intros H. now injection H as <-.
  - destruct (found (getModuleStructure E entry)); [|discriminate].
    intros H. now injection H as <-.
Qed.

(** X5.  The root entry never fails on its module: when its compilation returns,
    it comes without a tree exactly when the walker lists no route files for
    the entry directory, and then its diagnostics are those of the walker
    alone.  In every case the diagnostics of the walker come first. *)
Theorem root_compiles_what_the_walker_lists :
  forall fuel entry context contextFilepath segments r,
    getComponents E fuel entry context contextFilepath segments true = Returned r ->
    (result r = None <-> result (getRouteFiles E entry) = None)
    /\ exists rest,
         logs r = logs (getRouteFiles E entry) ++ rest
         /\ (result r = None -> rest = []).
Proof.
  intros fuel entry context contextFilepath segments r H.
  rewrite getComponents_unfold in H. cbn zeta in H.
  change (getModule E entry context contextFilepath true)
    with {| logs := [];
            result := Some {| entry := entry;
                              filepath := entry;
                              context := context;
                              contextFilepath := contextFilepath;
                              instance := {| config_name := ".";
                                             interface := CreateModuleInterface |} |} |}
    in H.
  cbn [result logs] in H. simpl entryOf in H.
  destruct (result (getRouteFiles E entry)) as [files|] eqn:Hfiles.
  - apply bind_returned in H as (structure & Hs & H). injection H as <-.
    edestruct getEndpoints_some as [t Ht]; [exact Hs|].
    cbn [result logs]. rewrite Ht. split; [split; discriminate|].
    exists (logs structure). split; [reflexivity | discriminate].
  - injection H as <-. cbn [result logs]. split; [tauto|].
    exists []. split; [now rewrite app_nil_r | reflexivity].
Qed.

(** X6.  [getStructure] returns endpoints and server together or neither.  When
    it returns them, the server is the resolved one, the tree is the one the
    root compilation returned, the list is that tree flattened, and the
    diagnostics are those of the server lookup followed by those of the
    compilation. *)
Theorem getStructure_all_or_nothing :
  forall fuel entry s,
    getStructure E fuel entry = Returned s ->
    (structure_endpoints s = None <-> structure_server s = None)
    /\ forall es,
         structure_endpoints s = Some es ->
         flattenEndpoints (Some (Subtree (endpoints_tree es)))
           = Returned (endpoints_list es)
         /\ exists server c,
              result (getServerConfig E entry) = Some server
              /\ structure_server s = Some server
              /\ getComponents E fuel entry (server_context (server_instance server))
                   (server_filepath server) [] true = Returned c
              /\ result c = Some (endpoints_tree es)
              /\ structure_logs s = logs (getServerConfig E entry) ++ logs c.
Proof.
  intros fuel entry s H. unfold getStructure in H.
  destruct (result (getServerConfig E entry)) as [server|] eqn:Hserver.
  - apply bind_returned in H as (c & Hc & H).
    destruct (result c) as [t|] eqn:Ht.
    + apply bind_returned in H as (l & Hl & H). injection H as <-. cbn.
      split; [split; discriminate|].
      intros es Hes. injection Hes as <-. cbn. split; [exact Hl|].
      exists server, c. repeat split; trivial.
    + injection H as <-. cbn. split; [tauto | discriminate].
  - injection H as <-. cbn. split; [tauto | discriminate].
Qed.

End CompilerFacts.

(** ** The shape of the compiled tree *)

Section ShapeFacts.

Variable Context : Type.

Lemma wellFormedTree_entries (t : EndpointTree Context) :
  wellFormedTree t = forallb (@wellFormedEntry Context) t.
Proof.
  unfold wellFormedTree. induction t as [|[k v] t IH]; [reflexivity|].
  change (wellFormedNode (Subtree ((k, v) :: t)))
    with (wellFormedEntry (k, v) && wellFormedNode (Subtree t)).
  now rewrite IH.
Qed.

Lemma forallb_set (V : Type) (p : string * V -> bool) k v (o : list (string * V)) :
  forallb p o = true -> p (k, v) = true -> forallb p (JsObject.set k v o) = true.
Proof.
  intros Ho Hkv. induction o as [|[k0 v0] o IH]; simpl in *.
  - now rewrite Hkv.
  - apply andb_prop in Ho as [H0 Ho].
    destruct (String.eqb k k0); simpl.
    + now rewrite Hkv, Ho.
    + now rewrite H0, IH.
Qed.

Lemma forallb_spread (V : Type) (p : string * V -> bool) (b : list (string * V)) :
  forall a, forallb p a = true -> forallb p b = true ->
            forallb p (JsObject.spread a b) = true.
Proof.
  unfold JsObject.spread.
  induction b as [|[k v] b IH]; intros a Ha Hb; simpl in *; [exact Ha|].
  apply andb_prop in Hb as [Hkv Hb].
  apply IH; [now apply forallb_set | exact Hb].
Qed.

Lemma segmentKey_prefix (n : string) : String.prefix "/" (segmentKey n) = true.
Proof.
  unfold segmentKey. simpl append. cbn [String.prefix].
  destruct (Ascii.ascii_dec "/" "/") as [_|Hne]; [|congruence].
  destruct n; reflexivity.
Qed.

Lemma get_in (V : Type) (o : list (string * V)) k v :
  JsObject.get k o = Some v -> In (k, v) o.
Proof.
  induction o as [|[k0 v0] o IH]; simpl; [discriminate|].
  destruct (String.eqb k k0) eqn:Hk.
  - apply String.eqb_eq in Hk. subst. intros H. injection H as <-. now left.
  - intros H. right. now apply IH.
Qed.

(** A well-formed tree has no key [filepath], and its ["."] entry, if any,
    is an endpoint. *)
Lemma wellFormed_no_filepath (t : EndpointTree Context) :
  wellFormedTree t = true -> JsObject.has "filepath" t = false.
Proof.
  rewrite wellFormedTree_entries. unfold JsObject.has.
  destruct (JsObject.get "filepath" t) as [v|] eqn:Hget; [|reflexivity].
  intros Hwf. apply get_in in Hget.
  rewrite forallb_forall in Hwf. specialize (Hwf _ Hget).
  unfold wellFormedEntry in Hwf. simpl in Hwf.
  destruct v; discriminate Hwf.
Qed.

Lemma wellFormed_dot (t : EndpointTree Context) v :
  wellFormedTree t = true -> JsObject.get "." t = Some v -> isTerminal v = true.
Proof.
  rewrite wellFormedTree_entries. intros Hwf Hget. apply get_in in Hget.
  rewrite forallb_forall in Hwf. specialize (Hwf _ Hget).
  unfold wellFormedEntry in Hwf. simpl in Hwf.
  destruct v; [reflexivity | discriminate Hwf].
Qed.

Lemma flattenNode_terminals :
  forall t : EndpointTree Context,
    wellFormedTree t = true ->
    exists l, flattenNode (Subtree t) = Returned l
              /\ Forall (fun x => isTerminal x = true) l.
Proof.
  assert (Hall : forall n : EndpointNode Context,
            match n with
            | Terminal _ => True
            | Subtree t =>
                wellFormedTree t = true ->
                exists l, flattenNode (Subtree t) = Returned l
                          /\ Forall (fun x => isTerminal x = true) l
            end).
  { induction n as [e|entries IH] using EndpointNode_induction; [exact I|].
    intros Hwf.
    rewrite flattenNode_entries by now apply wellFormed_no_filepath.
    assert (Hrest : exists l,
              collect (map (fun kv => flattenNode (snd kv))
                         (filter (fun kv => negb (String.eqb (fst kv) ".")) entries))
              = Returned l
              /\ Forall (fun x => isTerminal x = true) l).
    { rewrite wellFormedTree_entries in Hwf. clear - IH Hwf.
      induction entries as [|[k v] rest IHrest]; simpl.
      - exists []. split; [reflexivity | constructor].
      - simpl in Hwf. apply andb_prop in Hwf as [Hkv Hwf].
        inversion IH as [|? ? Hv Hothers]; subst.
        destruct (IHrest Hothers Hwf) as (others & Hcollect & Hterminal).
        destruct (negb (String.eqb k ".")) eqn:Hk; cbn [map collect snd];
          [|now exists others].
        unfold wellFormedEntry in Hkv. cbn [fst snd] in Hkv, Hv.
        destruct v as [e|t].
        + rewrite Hkv in Hk. discriminate Hk.
        + apply andb_prop in Hkv as [_ Ht].
          destruct (Hv Ht) as (first & Hfirst & Hfirst_terminal).
          rewrite Hfirst, Hcollect. simpl.
          exists (first ++ others). split; [reflexivity|].
          apply Forall_app. now split. }
    destruct Hrest as (l & Hl & Hterminal). rewrite Hl. simpl.
    eexists. split; [reflexivity|].
    apply Forall_app. split; [|exact Hterminal].
    destruct (JsObject.get "." entries) as [dot|] eqn:Hdot; [|constructor].
    constructor; [|constructor]. eapply wellFormed_dot; eauto. }
  intros t. exact (Hall (Subtree t)).
Qed.

(** X7.  Flattening a tree in which ["."] holds an endpoint and every other key
    starts with ["/"] and holds such a tree returns, and gives endpoints
    only: no tree is left in the list, and every ["."] entry of the tree is
    in it. *)
Theorem flatten_well_formed_gives_endpoints :
  forall t : EndpointTree Context,
    wellFormedTree t = true ->
    exists l,
      flattenEndpoints (Some (Subtree t)) = Returned l
      /\ Forall (fun x => isTerminal x = true) l
      /\ forall dot, JsObject.get "." t = Some dot -> exists rest, l = dot :: rest.
Proof.
  intros t Hwf.
  destruct (flattenNode_terminals t Hwf) as (l & Hl & Hterminal).
  exists l. split; [exact Hl|]. split; [exact Hterminal|].
  intros dot Hdot.
  rewrite flattenNode_entries in Hl by now apply wellFormed_no_filepath.
  apply bind_returned in Hl as (flattened & _ & Hl).
  rewrite Hdot in Hl. injection Hl as <-. now eexists.
Qed.

End ShapeFacts.

Section ShapeInvariant.

Variable Context : Type.
Variable E : Env Context.

Local Notation "'wellFormedResult' o" :=
  (forall r t, o = Returned r -> result r = Some t -> wellFormedTree t = true)
  (at level 10, o at level 9).

(** The declarative builder gives well-formed trees. *)
Hypothesis Hbuilder :
  forall module functions view segments t,
    result (getEndpointFileByDeclaration E module functions view segments) = Some t ->
    wellFormedTree t = true.

Lemma forEachDirectory_wellFormed recurse files segs dirs :
  Forall (fun nd => forall s, wellFormedResult (recurse (snd nd) s)) dirs ->
  forall (endpoints : EndpointTree Context) logs0,
    wellFormedTree endpoints = true ->
    wellFormedResult (forEachDirectory recurse files segs dirs endpoints logs0).
Proof.
  induction 1 as [|[n d] rest Hd _ IH]; intros endpoints logs0 Hwf r t H Ht;
    simpl in H.
  - injection H as <-. simpl in Ht. now injection Ht as <-.
  - apply bind_returned in H as (l1 & _ & H).
    apply bind_returned in H as (c & Hc & H).
    eapply IH; [|exact H | exact Ht].
    destruct (result c) as [ct|] eqn:Hct; [|exact Hwf].
    rewrite wellFormedTree_entries in *.
    apply forallb_set; [exact Hwf|].
    unfold wellFormedEntry. simpl fst. simpl snd.
    rewrite segmentKey_prefix. simpl.
    exact (Hd _ _ _ Hc Hct).
Qed.

Section OneDepth.

Variable compile :
  string -> Context -> string -> list Segment -> Outcome (Logged (EndpointTree Context)).
Hypothesis Hcompile : forall e c cf s, wellFormedResult (compile e c cf s).

Lemma getEndpointFile_wellFormed module filepath segs :
  wellFormedResult (getEndpointFile E compile module filepath segs).
Proof.
  intros r t H Ht. unfold getEndpointFile in H.
  assert (Hdecl : forall fn,
            Returned (getEndpointFileByDeclaration E module fn
                        (getViewFilepath E filepath) segs) = Returned r ->
            wellFormedTree t = true).
  { intros fn Hr. injection Hr as <-. eapply Hbuilder, Ht. }
  destruct (getFunctionsFilepath E filepath) as [functions|]; [|now apply Hdecl in H].
  destruct (JsString.truthy functions && Tooling_hasExportedLoader E functions);
    [|now apply Hdecl in H].
  unfold getEndpointFileByModule in H.
  destruct (getViewFilepath E filepath).
  { injection H as <-. discriminate Ht. }
  destruct (result (Tooling_getExportedLoader E functions _ _)) as [loaded|].
  2: { injection H as <-. discriminate Ht. }
  destruct (Tooling_getDefaultExport_loader E functions)
    as [[|msg]|[moduleLoader|]].
  { discriminate H. }
  { injection H as <-. discriminate Ht. }
  2: discriminate H.
  apply bind_returned in H as (components & Hc & H).
  destruct (hasError _); injection H as <-; [discriminate Ht|].
  eapply Hcompile; [exact Hc | exact Ht].
Qed.

Lemma getEndpoints_wellFormed module :
  forall dirTree segs, wellFormedResult (getEndpoints E compile module dirTree segs).
Proof.
  induction dirTree as [files dirs IH] using DirectoryStructureTree_induction.
  intros segs r t H Ht. simpl in H.
  apply bind_returned in H as ([l0 own] & Hown & H). simpl in H.
  eapply forEachDirectory_wellFormed; [| |exact H | exact Ht].
  - eapply Forall_impl; [|exact IH]. intros nd Hnd s. apply Hnd.
  - destruct files as [|f fs].
    + now injection Hown as <- <-.
    + apply bind_returned in Hown as (r0 & Hr0 & Hown). injection Hown as <- <-.
      destruct (result r0) as [t0|] eqn:Ht0; [|reflexivity].
      rewrite wellFormedTree_entries. apply forallb_spread; [reflexivity|].
      rewrite <- wellFormedTree_entries.
      eapply getEndpointFile_wellFormed; eauto.
Qed.

End OneDepth.

Lemma getComponents_wellFormed :
  forall fuel entry context contextFilepath segs isRoot,
    wellFormedResult (getComponents E fuel entry context contextFilepath segs isRoot).
Proof.
  induction fuel as [|fuel IH]; intros entry context contextFilepath segs isRoot r t H Ht;
    rewrite getComponents_unfold in H; cbn zeta in H;
    (destruct (result (getModule E entry context contextFilepath isRoot)) as [module|];
     [|injection H as <-; discriminate Ht]);
    (destruct (result (getRouteFiles E (entryOf module))) as [fl|];
     [|injection H as <-; discriminate Ht]);
    apply bind_returned in H as (structure & Hs & H); injection H as <-;
    cbn [result] in Ht;
    (eapply getEndpoints_wellFormed; [|exact Hs | exact Ht]).
  - intros e c cf s r' t' Hr'. discriminate Hr'.
  - intros e c cf s. apply IH.
Qed.

(** X8.  When the declarative builder gives trees in which ["."] holds an
    endpoint and every other key starts with ["/"] and holds such a tree,
    every tree the compiler returns is of that shape, through any depth of
    child directories and of delegated modules; and the list that
    [getStructure] returns with it holds endpoints only. *)
Theorem compiled_tree_is_well_formed :
  (forall fuel entry context contextFilepath segs isRoot r t,
     getComponents E fuel entry context contextFilepath segs isRoot = Returned r ->
     result r = Some t ->
     wellFormedTree t = true)
  /\ (forall fuel entry s es,
        getStructure E fuel entry = Returned s ->
        structure_endpoints s = Some es ->
        wellFormedTree (endpoints_tree es) = true
        /\ Forall (fun x => isTerminal x = true) (endpoints_list es)).
Proof.
  split; [intros; eapply getComponents_wellFormed; eauto|].
  intros fuel entry s es H Hes. unfold getStructure in H.
  destruct (result (getServerConfig E entry)) as [server|].
  2: { injection H as <-. discriminate Hes. }
  apply bind_returned in H as (c & Hc & H).
  destruct (result c) as [t|] eqn:Ht.
  2: { injection H as <-. discriminate Hes. }
  apply bind_returned in H as (l & Hl & H). injection H as <-.
  injection Hes as <-. cbn [endpoints_tree endpoints_list].
  assert (Hwf : wellFormedTree t = true) by (eapply getComponents_wellFormed; eauto).
  split; [exact Hwf|].
  destruct (flattenNode_terminals t Hwf) as (l' & Hl' & Hterminal).
  unfold flattenEndpoints in Hl. rewrite Hl' in Hl. now injection Hl as <-.
Qed.

End ShapeInvariant.

(** ** Projects without delegated modules *)

Lemma distinct_NoDup (l : list string) : distinct l = true -> NoDup l.
Proof.
  induction l as [|x l IH]; simpl; intros H; constructor.
  - apply andb_prop in H as [H _]. intros Hin.
    assert (Hex : existsb (String.eqb x) l = true).
    { apply existsb_exists. exists x. split; [exact Hin | apply String.eqb_refl]. }
    now rewrite Hex in H.
  - apply andb_prop in H as [_ H]. now apply IH.
Qed.

Lemma distinctNames_level files dirs :
  distinctNames (DirTree files dirs) = true ->
  NoDup (map fst dirs) /\ Forall (fun nd => distinctNames (snd nd) = true) dirs.
Proof.
  simpl. intros H. apply andb_prop in H as [Hd Heach].
  split; [now apply distinct_NoDup|].
  clear Hd. induction dirs as [|[n d] rest IH]; constructor.
  - now apply andb_prop in Heach as [H _].
  - apply andb_prop in Heach as [_ H]. now apply IH.
Qed.

Section NoDelegation.

Variable Context : Type.
Variable E : Env Context.

(** No functions file exports a loader. *)
Hypothesis Hnone : forall p, Tooling_hasExportedLoader E p = false.

Lemma getEndpoints_returns compile module :
  forall dirTree,
    distinctNames dirTree = true ->
    forall segs, exists r, getEndpoints E compile module dirTree segs = Returned r.
Proof.
  induction dirTree as [files dirs IH] using DirectoryStructureTree_induction.
  intros Hwf segs. apply distinctNames_level in Hwf as [Hnd Hdirs].
  assert (Hchildren : forall nd, In nd dirs ->
            exists r, childCall (getEndpoints E compile module) segs nd = Returned r).
  { intros nd Hin. rewrite Forall_forall in IH, Hdirs.
    apply (IH nd Hin (Hdirs nd Hin)). }
  destruct files as [|f fs].
  - rewrite getEndpoints_no_route_file.
    rewrite forEachDirectory_level; trivial; [now eexists|].
    right. reflexivity.
  - rewrite getEndpoints_route_file
      with (own := getEndpointFileByDeclaration E module
                     (getFunctionsFilepath E (filepath_absolute f))
                     (getViewFilepath E (filepath_absolute f)) segs)
      by (apply getEndpointFile_without_loader; exact Hnone).
    rewrite forEachDirectory_level; trivial; [now eexists|].
    left. discriminate.
Qed.

(** X10.  In a project where no functions file exports a loader, the compilation
    of an entry whose directory tree has distinct names at every level
    returns, and returns the same value whatever the bound on delegation:
    nothing is raised and the nested compiler is never needed. *)
Theorem no_delegation_always_returns :
  forall entry context contextFilepath segs isRoot,
    (forall fl, result (getRouteFiles E entry) = Some fl ->
                distinctNames (tree fl) = true) ->
    exists r, forall fuel,
      getComponents E fuel entry context contextFilepath segs isRoot = Returned r.
Proof.
  intros entry context contextFilepath segs isRoot.
  assert (Hsame : forall fuel,
            getComponents E fuel entry context contextFilepath segs isRoot =
            getComponents E 0 entry context contextFilepath segs isRoot).
  { intros fuel. rewrite !getComponents_unfold. cbn zeta.
    destruct (result (getModule E entry context contextFilepath isRoot));
      [|reflexivity].
    destruct (result (getRouteFiles E _)); [|reflexivity].
    now rewrite getEndpoints_ignores_compile
      with (compile' := fun _ _ _ _ => OutOfFuel). }
  intros Hwf.
  assert (Hret : exists r,
            getComponents E 0 entry context contextFilepath segs isRoot = Returned r).
  { rewrite getComponents_unfold. cbn zeta.
    destruct (result (getModule E entry context contextFilepath isRoot))
      as [module|] eqn:Hm; [|now eexists].
    rewrite (getModule_entry _ _ _ _ _ Hm).
    destruct (result (getRouteFiles E entry)) as [fl|] eqn:Hfl; [|now eexists].
    destruct (getEndpoints_returns (fun _ _ _ _ => OutOfFuel) module
                (tree fl) (Hwf fl eq_refl) segs) as [r Hr].
    rewrite Hr. simpl. now eexists. }
  destruct Hret as [r Hr]. exists r. intros fuel. now rewrite Hsame.
Qed.

End NoDelegation.

(** ** The keys of a level *)

Section KeyFacts.

Variable V : Type.
Implicit Types (o : list (string * V)) (k : string) (v : V).

Lemma keys_set k v o :
  JsObject.keys (JsObject.set k v o) =
  if JsObject.has k o then JsObject.keys o else JsObject.keys o ++ [k].
Proof.
  unfold JsObject.has, JsObject.keys.
  induction o as [|[k0 v0] o IH]; simpl; [reflexivity|].
  destruct (String.eqb k k0) eqn:Hk; simpl.
  - apply String.eqb_eq in Hk. now subst.
  - rewrite IH. now destruct (JsObject.get k o).
Qed.

Lemma set_fresh k v o :
  JsObject.has k o = false -> JsObject.set k v o = o ++ [(k, v)].
Proof.
  unfold JsObject.has.
  induction o as [|[k0 v0] o IH]; simpl; [reflexivity|].
  destruct (String.eqb k k0); [discriminate|].
  intros H. now rewrite IH.
Qed.

Lemma NoDup_keys_set k v o :
  NoDup (JsObject.keys o) -> NoDup (JsObject.keys (JsObject.set k v o)).
Proof.
  intros Hnd. rewrite keys_set.
  destruct (JsObject.has k o) eqn:Hk; [exact Hnd|].
  apply NoDup_app; [exact Hnd | repeat constructor; simpl; tauto |].
  intros x Hx [<-|[]]. apply has_keys in Hx. congruence.
Qed.

Lemma NoDup_keys_spread (b : list (string * V)) :
  forall a, NoDup (JsObject.keys a) -> NoDup (JsObject.keys (JsObject.spread a b)).
Proof.
  unfold JsObject.spread.
  induction b as [|[k v] b IH]; intros a Ha; simpl; [exact Ha|].
  apply IH. now apply NoDup_keys_set.
Qed.

(** Spreading an object into an empty one copies it. *)
Lemma spread_copy (b : list (string * V)) :
  forall a, NoDup (JsObject.keys (a ++ b)) -> JsObject.spread a b = a ++ b.
Proof.
  unfold JsObject.spread.
  induction b as [|[k v] b IH]; intros a Hnd; simpl.
  - now rewrite app_nil_r.
  - assert (Hfresh : JsObject.has k a = false).
    { destruct (JsObject.has k a) eqn:Hk; [|reflexivity].
      apply has_keys in Hk. unfold JsObject.keys in *. rewrite map_app in Hnd.
      simpl in Hnd. apply NoDup_remove_2 in Hnd.
      exfalso. apply Hnd. apply in_or_app. now left. }
    rewrite set_fresh by exact Hfresh.
    rewrite IH; rewrite <- app_assoc; [reflexivity | exact Hnd].
Qed.

End KeyFacts.

Section KeyOrder.

Variable Context : Type.
Variable E : Env Context.

Lemma forEachDirectory_key_order recurse files segs dirs :
  (forall d s c, recurse d s = Returned c -> exists t, result c = Some t) ->
  NoDup (map fst dirs) ->
  forall (endpoints : EndpointTree Context) logs0 r T,
    forEachDirectory recurse files segs dirs endpoints logs0 = Returned r ->
    result r = Some T ->
    JsObject.keys T =
      JsObject.keys endpoints
      ++ filter (fun k => negb (JsObject.has k endpoints))
           (map (fun nd => segmentKey (fst nd)) dirs)
    /\ (NoDup (JsObject.keys endpoints) -> NoDup (JsObject.keys T)).
Proof.
  intros Hsome.
  induction dirs as [|[n d] rest IH]; intros Hnd endpoints logs0 r T H HT; simpl in H.
  - injection H as <-. simpl in HT. injection HT as <-. simpl.
    now rewrite app_nil_r.
  - inversion Hnd as [|? ? Hnotin Hrest]; subst.
    apply bind_returned in H as (l1 & _ & H).
    apply bind_returned in H as (c & Hc & H).
    destruct (Hsome _ _ _ Hc) as [ct Hct]. rewrite Hct in H.
    destruct (IH Hrest _ _ _ _ H HT) as [Hkeys Hnodup].
    split; [|intros Hk; now apply Hnodup, NoDup_keys_set].
    rewrite Hkeys, keys_set. simpl map. simpl filter.
    assert (Hsame :
      filter (fun k => negb (JsObject.has k
                 (JsObject.set (segmentKey n) (Subtree ct) endpoints)))
        (map (fun nd => segmentKey (fst nd)) rest) =
      filter (fun k => negb (JsObject.has k endpoints))
        (map (fun nd => segmentKey (fst nd)) rest)).
    { apply filter_ext_in. intros k Hk. f_equal.
      apply has_set_other. intros Heq. subst k.
      apply in_map_iff in Hk as ([n' d'] & Hk & Hin).
      apply segmentKey_inj in Hk. simpl in Hk. subst n'.
      apply Hnotin. apply in_map_iff. now exists (n, d'). }
    rewrite Hsame.
    destruct (JsObject.has (segmentKey n) endpoints); simpl;
      [reflexivity | now rewrite <- app_assoc].
Qed.

(** X11.  The keys of the tree of a level are distinct and in this order: first
    the keys the route file contributed, in their order, then the key of
    every child directory that the route file had not contributed, in listing
    order.  A directory whose key the route file contributed overwrites the
    value and leaves the key where it stands. *)
Theorem keys_follow_route_file_then_listing :
  forall compile module files dirs segs r T,
    NoDup (map fst dirs) ->
    getEndpoints E compile module (DirTree files dirs) segs = Returned r ->
    result r = Some T ->
    exists own : EndpointTree Context,
      match files with
      | [] => own = []
      | f :: _ =>
          exists r0,
            getEndpointFile E compile module (filepath_absolute f) segs = Returned r0
            /\ own = ownTree r0
      end
      /\ JsObject.keys T =
           JsObject.keys own
           ++ filter (fun k => negb (JsObject.has k own))
                (map (fun nd => segmentKey (fst nd)) dirs)
      /\ NoDup (JsObject.keys T).
Proof.
  intros compile module files dirs segs r T Hnd H HT. simpl in H.
  apply bind_returned in H as ([l0 own] & Hown & H). simpl in H.
  exists own.
  edestruct forEachDirectory_key_order as [Hkeys Hnodup];
    [|exact Hnd | exact H | exact HT |].
  { intros d s c. apply getEndpoints_some. }
  destruct files as [|f fs].
  - injection Hown as <- <-. repeat split; trivial. apply Hnodup. constructor.
  - apply bind_returned in Hown as (r0 & Hr0 & Hown). injection Hown as <- <-.
    split; [exists r0; split; [exact Hr0 | reflexivity]|].
    split; [exact Hkeys|]. apply Hnodup.
    destruct (result r0); [|constructor].
    apply NoDup_keys_spread. constructor.
Qed.

End KeyOrder.

(** ** Delegation adds no level *)

Section DelegationMerges.

Variable Context : Type.
Variable E : Env Context.
Variable compile :
  string -> Context -> string -> list Segment -> Outcome (Logged (EndpointTree Context)).
Variable module : ModuleConfigFile Context.
Variable f : RouteFile.
Variable fs : list RouteFile.
Variable segs : list Segment.
Variable functions : string.
Variable loaded : LoadedModule.
Variable moduleLoader : ModuleInterface Context.

(** X12.  A directory without child directories whose route file is a delegated
    module compiles to the tree of the nested module itself, key for key and
    in the same order, when the branch logged no ERROR: the keys of the
    nested module are merged into the level, not put under a key of their
    own.  The diagnostics are those of the branch. *)
Theorem delegated_module_merges_its_tree :
  getFunctionsFilepath E (filepath_absolute f) = Some functions ->
  JsString.truthy functions = true ->
  Tooling_hasExportedLoader E functions = true ->
  getViewFilepath E (filepath_absolute f) = None ->
  result (Tooling_getExportedLoader E functions "Module Loader" ".load")
    = Some loaded ->
  Tooling_getDefaultExport_loader E functions = Exported (Some moduleLoader) ->
  forall components t,
    compile (nestedEntryOf E functions loaded) (interface_context moduleLoader)
      functions segs = Returned components ->
    result components = Some t ->
    NoDup (JsObject.keys t) ->
    hasError (branchLogsOf E functions (logs components)) = false ->
    getEndpoints E compile module (DirTree (f :: fs) []) segs =
    Returned {| logs := branchLogsOf E functions (logs components);
                result := Some t |}.
Proof.
  intros Hfunctions Htruthy Hloader Hview Hloaded Hexport components t Hc Ht Hnd Herr.
  rewrite getEndpoints_route_file
    with (own := {| logs := branchLogsOf E functions (logs components);
                    result := Some t |}).
  - unfold ownTree. simpl. now rewrite (spread_copy t [] Hnd).
  - rewrite delegating_route_file
      with (functions := functions) (loaded := loaded) (moduleLoader := moduleLoader)
           (components := components); trivial.
    now rewrite Herr, Ht.
Qed.

End DelegationMerges.

(** ** Flattening after a write *)

Lemma collect_app (A : Type) (a b : list (Outcome (list A))) :
  collect (a ++ b) =
  (x <- collect a ;; y <- collect b ;; Returned (x ++ y)).
Proof.
  induction a as [|part a IH]; simpl.
  - destruct (collect b); reflexivity.
  - destruct part as [first| |]; simpl; try reflexivity.
    rewrite IH. destruct (collect a) as [x| |]; simpl; try reflexivity.
    destruct (collect b) as [y| |]; simpl; try reflexivity.
    now rewrite app_assoc.
Qed.

(** X13.  Writing the key of a child directory, a new key, into a tree
    appends the flattened contents of the value written to the flattened
    tree: the endpoints already listed keep their places. *)
Theorem flatten_after_new_key :
  forall (Context : Type) (entries : list (string * EndpointNode Context))
         (n : string) (v : EndpointNode Context),
    JsObject.has (segmentKey n) entries = false ->
    JsObject.has "filepath" entries = false ->
    flattenNode (Subtree (JsObject.set (segmentKey n) v entries)) =
    (listed <- flattenNode (Subtree entries) ;;
     added <- flattenNode v ;;
     Returned (listed ++ added)).
Proof.
  intros Context entries n v Hfresh Hnofile.
  assert (Hdot : segmentKey n <> "."%string) by discriminate.
  assert (Hfile : segmentKey n <> "filepath"%string) by discriminate.
  assert (Hnofile' : JsObject.has "filepath" (JsObject.set (segmentKey n) v entries)
                     = false).
  { rewrite has_set_other; [exact Hnofile | exact Hfile]. }
  rewrite !flattenNode_entries by trivial.
  rewrite get_set_other by exact Hdot.
  rewrite set_fresh by exact Hfresh.
  rewrite filter_app, map_app, collect_app. cbn [filter fst].
  apply String.eqb_neq in Hdot. rewrite Hdot. cbn [negb map collect snd].
  destruct (collect _) as [x| |]; simpl; try reflexivity.
  destruct (flattenNode v) as [y| |]; simpl; try reflexivity.
  now rewrite app_nil_r, app_assoc.
Qed.

(** ** The views of the bundler *)

Section ViewFacts.

Variable Context : Type.
Variable readFileSync : string -> option string.

Lemma makeBuildViews_loop (l : list (EndpointNode Context)) :
  forall acc views,
    (fix loop (l : list (EndpointNode Context)) (views : list (option View)) :=
       match l with
       | [] => Returned views
       | endpoint :: rest =>
           view <- makeBuildView readFileSync endpoint ;;
           loop rest (views ++ [view])
       end) l acc = Returned views ->
    exists vs, views = acc ++ vs
               /\ Forall2 (fun n v => makeBuildView readFileSync n = Returned v) l vs.
Proof.
  induction l as [|n l IH]; intros acc views H.
  - injection H as <-. exists []. split; [now rewrite app_nil_r | constructor].
  - apply bind_returned in H as (v & Hv & H).
    apply IH in H as (vs & -> & Hvs).
    exists (v :: vs). split; [now rewrite <- app_assoc | now constructor].
Qed.

(** X14.  When [makeBuildViews] returns, the views are as many as the endpoints of
    the list and stand at the same places: the view of an endpoint with a
    view file is that file and its content as read, and the view of an
    endpoint without one, or with an empty path, is [undefined].  Without
    endpoints in the structure the function raises. *)
Theorem views_stand_beside_endpoints :
  makeBuildViews readFileSync (Context := Context) None = Raised
  /\ forall structure views,
       makeBuildViews readFileSync (Some structure) = Returned views ->
       length views = length (endpoints_list structure)
       /\ Forall2
            (fun (n : EndpointNode Context) (v : option View) =>
               match n, v with
               | Terminal e, Some w =>
                   viewFilepath e = Some (view_filepath w)
                   /\ JsString.truthy (view_filepath w) = true
                   /\ readFileSync (view_filepath w) = Some (html w)
               | Terminal e, None =>
                   viewFilepath e = None \/ viewFilepath e = Some EmptyString
               | Subtree entries, Some _ => False
               | Subtree entries, None => JsObject.has "viewFilepath" entries = false
               end)
            (endpoints_list structure) views.
Proof.
  split; [reflexivity|].
  intros structure views H. unfold makeBuildViews in H.
  apply makeBuildViews_loop in H as (vs & -> & Hvs). simpl.
  split; [symmetry; eapply Forall2_length, Hvs|].
  eapply Forall2_impl; [|exact Hvs].
  intros n v Hv. unfold makeBuildView in Hv.
  destruct n as [e|entries].
  - destruct (viewFilepath e) as [p|].
    + destruct (JsString.truthy p) eqn:Hp.
      * destruct (readFileSync p) as [c|] eqn:Hread; [|discriminate].
        injection Hv as <-. simpl. auto.
      * injection Hv as <-. right. destruct p; [reflexivity | discriminate].
    + injection Hv as <-. now left.
  - destruct (JsObject.has "viewFilepath" entries); [discriminate|].
    now injection Hv as <-.
Qed.

End ViewFacts.

(** ** The overlap warning *)

(** X15.  The text of the overlap warning prints every segment of the chain as
    [[object Object]]: it tells how long the chain is and nothing of its
    names, so two chains of the same length give the same warning. *)
Theorem overlap_warning_does_not_name_segments :
  forall (segs segs' : list Segment) (filepath : string),
    length segs = length segs' ->
    overlapWarning segs filepath = overlapWarning segs' filepath.
Proof.
  intros segs segs' filepath Hlen. unfold overlapWarning. do 3 f_equal.
  f_equal. f_equal. revert segs' Hlen.
  induction segs as [|s segs IH]; intros [|s' segs'] Hlen; simpl in *;
    try discriminate; [reflexivity|].
  f_equal. apply IH. now injection Hlen.
Qed.

(** ** What is never raised *)

Section NeverRaised.

Variable Context : Type.
Variable E : Env Context.

(** The default export of every functions file that exports a loader is
    defined, and what the load of one throws is not [null] or [undefined]. *)
Hypothesis Hexports :
  forall p, Tooling_hasExportedLoader E p = true ->
            Tooling_getDefaultExport_loader E p <> Exported None.
Hypothesis Hthrown :
  forall p, Tooling_hasExportedLoader E p = true ->
            Tooling_getDefaultExport_loader E p <> Thrown Nullish.

(** The declarative builder gives trees in which ["."] holds an endpoint and
    every other key starts with ["/"] and holds such a tree. *)
Hypothesis Hbuilder :
  forall module functions view segments t,
    result (getEndpointFileByDeclaration E module functions view segments) = Some t ->
    wellFormedTree t = true.

Lemma forEachDirectory_never_raises recurse files segs dirs :
  Forall (fun nd => forall s, recurse (snd nd) s <> Raised) dirs ->
  NoDup (map fst dirs) ->
  forall (endpoints : EndpointTree Context) logs0,
    (files <> [] \/
     forall nd, In nd dirs -> JsObject.has (segmentKey (fst nd)) endpoints = false) ->
    forEachDirectory recurse files segs dirs endpoints logs0 <> Raised.
Proof.
  induction 1 as [|[n d] rest Hd _ IH]; intros Hnd endpoints logs0 Hfiles;
    simpl; [discriminate|].
  inversion Hnd as [|? ? Hnotin Hrest]; subst.
  assert (Hwarn : exists l1,
    (if JsObject.has (segmentKey n) endpoints then
       match files with
       | f :: _ => Returned (logs0 ++ [overlapWarning segs (filepath_absolute f)])
       | [] => Raised
       end
     else Returned logs0) = Returned l1).
  { destruct (JsObject.has (segmentKey n) endpoints) eqn:Hhas; [|now eexists].
    destruct files as [|f fs]; [|now eexists].
    destruct Hfiles as [Hf|Hf]; [congruence|].
    specialize (Hf (n, d) (or_introl eq_refl)). simpl in Hf. congruence. }
  destruct Hwarn as [l1 ->]. simpl.
  destruct (recurse d (segs ++ [getSegment n])) as [c| |] eqn:Hc; simpl.
  - apply IH; [exact Hrest|].
    destruct Hfiles as [Hf|Hf]; [now left|]. right.
    intros [n' d'] Hin. simpl.
    destruct (result c); [|apply (Hf (n', d')); now right].
    rewrite has_set_other; [apply (Hf (n', d')); now right|].
    intros Heq. apply segmentKey_inj in Heq. subst n'.
    apply Hnotin. apply in_map_iff. now exists (n, d').
  - now apply (Hd (segs ++ [getSegment n])) in Hc.
  - discriminate.
Qed.

Lemma getEndpoints_never_raises compile module :
  (forall e c cf s, compile e c cf s <> Raised) ->
  forall dirTree,
    distinctNames dirTree = true ->
    forall segs, getEndpoints E compile module dirTree segs <> Raised.
Proof.
  intros Hcompile.
  induction dirTree as [files dirs IH] using DirectoryStructureTree_induction.
  intros Hwf segs. apply distinctNames_level in Hwf as [Hnd Hdirs].
  assert (Hchildren :
    Forall (fun nd => forall s, getEndpoints E compile module (snd nd) s <> Raised) dirs).
  { rewrite Forall_forall in *. intros nd Hin s. now apply IH, Hdirs. }
  simpl. destruct files as [|f fs]; simpl.
  - apply forEachDirectory_never_raises; trivial. right. reflexivity.
  - destruct (getEndpointFile E compile module (filepath_absolute f) segs)
      as [r0| |] eqn:Hr0; simpl.
    + apply forEachDirectory_never_raises; trivial. left. discriminate.
    + exfalso. revert Hr0. unfold getEndpointFile.
      destruct (getFunctionsFilepath E (filepath_absolute f)) as [functions|];
        [|discriminate].
      destruct (JsString.truthy functions && Tooling_hasExportedLoader E functions)
        eqn:Hloader; [|discriminate].
      apply andb_prop in Hloader as [_ Hloader].
      unfold getEndpointFileByModule.
      destruct (getViewFilepath E (filepath_absolute f)); [discriminate|].
      destruct (result (Tooling_getExportedLoader E functions _ _)); [|discriminate].
      destruct (Tooling_getDefaultExport_loader E functions)
        as [[|msg]|[moduleLoader|]] eqn:Hexp;
        [now apply Hthrown in Hexp | discriminate | | now apply Hexports in Hexp].
      destruct (compile _ _ _ _) as [c| |] eqn:Hc; simpl.
      * now destruct (hasError _).
      * now apply Hcompile in Hc.
      * discriminate.
    + discriminate.
Qed.

(** X16.  When the walker lists directory trees with distinct names at every
    level, every functions file that exports a loader has a default export,
    the load of one throws no [null] or [undefined], and the declarative
    builder gives trees in which ["."] holds an endpoint and every other key
    starts with ["/"] and holds such a tree, no compilation raises: whatever
    goes wrong in the project is returned as diagnostics. *)
Theorem compilation_never_raises :
  (forall entry fl, result (getRouteFiles E entry) = Some fl ->
                    distinctNames (tree fl) = true) ->
  (forall fuel entry context contextFilepath segs isRoot,
     getComponents E fuel entry context contextFilepath segs isRoot <> Raised)
  /\ (forall fuel entry, getStructure E fuel entry <> Raised).
Proof.
  intros Hwalker.
  assert (Hcomponents : forall fuel entry context contextFilepath segs isRoot,
            getComponents E fuel entry context contextFilepath segs isRoot <> Raised).
  { induction fuel as [|fuel IH]; intros entry context contextFilepath segs isRoot;
      rewrite getComponents_unfold; cbn zeta;
      (destruct (result (getModule E entry context contextFilepath isRoot))
         as [module|]; [|discriminate]);
      (destruct (result (getRouteFiles E (entryOf module))) as [fl|] eqn:Hfl;
       [|discriminate]);
      (destruct (getEndpoints E _ module (tree fl) segs) as [st| |] eqn:Hst;
       simpl; try discriminate);
      exfalso; revert Hst; apply getEndpoints_never_raises;
      try (eapply Hwalker; exact Hfl).
    - discriminate.
    - intros e c cf s. apply IH. }
  split; [exact Hcomponents|].
  intros fuel entry. unfold getStructure.
  destruct (result (getServerConfig E entry)) as [server|]; [|discriminate].
  destruct (getComponents E fuel entry _ _ [] true) as [c| |] eqn:Hc; cbn [bind].
  - destruct (result c) as [t|] eqn:Ht; [|discriminate].
    assert (Hwf : wellFormedTree t = true)
      by (eapply getComponents_wellFormed; eauto).
    destruct (flattenNode_terminals t Hwf) as (l & Hl & _).
    unfold flattenEndpoints. rewrite Hl. discriminate.
  - now apply Hcomponents in Hc.
  - discriminate.
Qed.

End NeverRaised.

(** ** A level without collision *)

Section NoCollision.

Variable Context : Type.
Variable E : Env Context.
Variable compile :
  string -> Context -> string -> list Segment -> Outcome (Logged (EndpointTree Context)).
Variable module : ModuleConfigFile Context.

Local Notation "'child'" := (getEndpoints E compile module).

Lemma write_fresh segs dirs :
  forall acc : EndpointTree Context,
    NoDup (map fst dirs) ->
    (forall nd, In nd dirs -> JsObject.has (segmentKey (fst nd)) acc = false) ->
    fold_left (directoryWrite child segs) dirs acc =
    acc ++ flat_map
             (fun nd => match resultOf (childCall child segs nd) with
                        | Some t => [(segmentKey (fst nd), Subtree t)]
                        | None => []
                        end) dirs.
Proof.
  induction dirs as [|[n d] rest IH]; intros acc Hnd Hfresh; simpl.
  - now rewrite app_nil_r.
  - inversion Hnd as [|? ? Hnotin Hrest]; subst.
    unfold directoryWrite at 2.
    destruct (resultOf (childCall child segs (n, d))) as [t|] eqn:Ht; simpl.
    + rewrite set_fresh by (apply (Hfresh (n, d)); now left).
      rewrite IH; [now rewrite <- app_assoc | exact Hrest |].
      intros [n' d'] Hin. simpl.
      unfold JsObject.has. rewrite <- set_fresh with (v := Subtree t)
        by (apply (Hfresh (n, d)); now left).
      fold (JsObject.has (segmentKey n')
              (JsObject.set (segmentKey n) (Subtree t) acc)).
      rewrite has_set_other; [apply (Hfresh (n', d')); now right|].
      intros Heq. apply segmentKey_inj in Heq. subst n'.
      apply Hnotin. apply in_map_iff. now exists (n, d').
    + apply IH; [exact Hrest|]. intros nd Hin. apply Hfresh. now right.
Qed.

(** X17.  At a level whose route file contributed no key of a child directory
    (a declarative endpoint contributes ["."] alone), nothing is warned of
    and nothing is overwritten: the diagnostics are those of the route file
    followed by those of each child directory in listing order, and the tree
    is the one of the route file followed by one entry per child directory,
    in listing order, holding the subtree compiled from it. *)
Theorem level_without_collision :
  forall f fs dirs segs own,
    NoDup (map fst dirs) ->
    getEndpointFile E compile module (filepath_absolute f) segs = Returned own ->
    (forall nd, In nd dirs ->
       exists r, child (snd nd) (segs ++ [getSegment (fst nd)]) = Returned r) ->
    (forall nd, In nd dirs ->
       JsObject.has (segmentKey (fst nd)) (ownTree own) = false) ->
    getEndpoints E compile module (DirTree (f :: fs) dirs) segs =
    Returned
      {| logs := logs own
                 ++ flat_map (fun nd => logsOf (childCall child segs nd)) dirs;
         result :=
           Some (ownTree own
                 ++ flat_map
                      (fun nd => match resultOf (childCall child segs nd) with
                                 | Some t => [(segmentKey (fst nd), Subtree t)]
                                 | None => []
                                 end) dirs) |}.
Proof.
  intros f fs dirs segs own Hnd Hown Hchildren Hfresh.
  rewrite (@getEndpoints_level Context E compile module f fs dirs segs own Hnd Hown
             Hchildren).
  rewrite write_fresh by trivial.
  do 3 f_equal. apply flat_map_ext_in. intros nd Hin.
  unfold directoryLogs. now rewrite (Hfresh nd Hin).
Qed.

End NoCollision.

(* ================================================================== *)
(** * The further properties on the sample projects *)

Lemma overlap_warning_does_not_name_segments_witness :
  overlapWarning [getSegment "users"; getSegment "[id]"] "/app/index.ts" =
  overlapWarning [getSegment "posts"; getSegment "new"] "/app/index.ts".
Proof.
  exact (overlap_warning_does_not_name_segments
           [getSegment "users"; getSegment "[id]"]
           [getSegment "posts"; getSegment "new"] "/app/index.ts" eq_refl).
Defined.

(** The declarative builder of the samples puts one endpoint under ["."]. *)
Lemma sample_builder_well_formed (P : Sample.Project) :
  forall module functions view segments t,
    result (getEndpointFileByDeclaration (Sample.envOf P) module functions view
              segments) = Some t ->
    wellFormedTree t = true.
Proof.
  intros module functions view segments t. simpl. unfold Sample.declare.
  destruct functions, view; simpl; intros H; try discriminate;
    injection H as <-; reflexivity.
Qed.

(** On [Sample.delegated]: the delegating route file of the root. *)
Lemma delegated_tree_has_no_error_witness :
  let P := Sample.delegated in
  let r := getEndpointFileByModule (Sample.envOf P) (Sample.delegation P)
             "/app/index.ts" None [] in
  option_map (@JsObject.keys _) (resultOf r) = Some ["/x"; "/y"]%string
  /\ hasError (logsOf r) = false.
Proof.
  intros P r. split; [reflexivity|].
  edestruct (delegated_tree_has_no_error (Sample.envOf P) (Sample.delegation P)
               "/app/index.ts" None []) as (_ & Herr & _);
    [reflexivity | reflexivity | exact Herr].
Defined.

(** On [Sample.simple]: the route file of the directory [a]. *)
Lemma declarative_route_file_witness :
  let E := Sample.envOf Sample.simple in
  getEndpointFile E (fun _ _ _ _ => Raised) Sample.rootModule "/app/a/index.ts"
    [getSegment "a"] =
  getEndpointFile E (Sample.delegation Sample.simple) Sample.rootModule
    "/app/a/index.ts" [getSegment "a"].
Proof.
  intros E.
  apply (proj2 (declarative_route_file E (Sample.delegation Sample.simple)
                  Sample.rootModule "/app/a/index.ts" [getSegment "a"]
                  (fun functions _ => eq_refl))).
Defined.

(** On [Sample.simple] and on a directory the walker does not list. *)
Lemma root_compiles_what_the_walker_lists_witness :
  let E := Sample.envOf Sample.simple in
  (exists r, getComponents E 0 "/app" "server" "/app/sherpa.server.ts" [] true
             = Returned r /\ result r <> None)
  /\ (exists r, getComponents E 0 "/elsewhere" "server" "/app/sherpa.server.ts" [] true
                = Returned r /\ result r = None /\ logs r = []).
Proof.
  intros E. split.
  - eexists. split; [reflexivity|]. intros Hnone.
    apply (proj1 (root_compiles_what_the_walker_lists E 0 "/app" "server"
                    "/app/sherpa.server.ts" [] eq_refl)) in Hnone.
    discriminate Hnone.
  - eexists. split; [reflexivity|].
    destruct (root_compiles_what_the_walker_lists E 0 "/elsewhere" "server"
                "/app/sherpa.server.ts" [] eq_refl) as [Hiff (rest & Hlogs & Hrest)].
    split; [now apply Hiff|].
    rewrite Hlogs, Hrest; [reflexivity | now apply Hiff].
Defined.

(** On [Sample.simple]: endpoints and server come together. *)
Lemma getStructure_all_or_nothing_witness :
  let E := Sample.envOf Sample.simple in
  exists s,
    getStructure E 0 "/app" = Returned s
    /\ structure_endpoints s <> None
    /\ structure_server s <> None.
Proof.
  intros E. eexists. split; [reflexivity|].
  destruct (getStructure_all_or_nothing E 0 "/app" eq_refl) as [Hiff _].
  split; [discriminate|].
  intros Hnone. apply Hiff in Hnone. discriminate Hnone.
Defined.

(** On a tree with an endpoint of its own and one child. *)
Lemma flatten_well_formed_gives_endpoints_witness :
  let t : EndpointTree string :=
    [(".", Terminal (Sample.endpointAt "/app/index.ts" []));
     ("/a", Subtree [(".", Terminal (Sample.endpointAt "/app/a/index.ts"
                                       [getSegment "a"]))])] in
  wellFormedTree t = true
  /\ exists l, flattenEndpoints (Some (Subtree t)) = Returned l
               /\ Forall (fun x => isTerminal x = true) l
               /\ (exists rest,
                     l = Terminal (Sample.endpointAt "/app/index.ts" []) :: rest).
Proof.
  intros t. split; [reflexivity|].
  destruct (flatten_well_formed_gives_endpoints t eq_refl)
    as (l & Hl & Hterminal & Hdot).
  exists l. split; [exact Hl|]. split; [exact Hterminal|].
  exact (Hdot _ eq_refl).
Defined.

(** On [Sample.delegated], compiled through its delegated module. *)
Lemma compiled_tree_is_well_formed_witness :
  let E := Sample.envOf Sample.delegated in
  exists s es,
    getStructure E 1 "/app" = Returned s
    /\ structure_endpoints s = Some es
    /\ wellFormedTree (endpoints_tree es) = true
    /\ Forall (fun x => isTerminal x = true) (endpoints_list es).
Proof.
  intros E. eexists. eexists. split; [reflexivity|]. split; [reflexivity|].
  exact (proj2 (compiled_tree_is_well_formed E
                  (sample_builder_well_formed Sample.delegated))
           1 "/app"%string _ _ eq_refl eq_refl).
Defined.

(** On [SampleMore.deep], three directories deep, no loader. *)
Lemma no_delegation_always_returns_witness :
  let E := Sample.envOf SampleMore.deep in
  (forall p, Tooling_hasExportedLoader E p = false)
  /\ distinctNames SampleMore.deepLevel = true
  /\ exists r, forall fuel,
       getComponents E fuel "/app" "server" "/app/sherpa.server.ts" [] true
       = Returned r.
Proof.
  intros E. split; [reflexivity|]. split; [reflexivity|].
  apply (no_delegation_always_returns E (fun p => eq_refl)).
  intros fl Hfl. injection Hfl as <-. reflexivity.
Defined.

(** On the root level of [Sample.delegated]: the route file contributes
    [/x] and [/y], the child directory [x] overwrites [/x] in place. *)
Lemma keys_follow_route_file_then_listing_witness :
  let P := Sample.delegated in
  let level :=
    getEndpoints (Sample.envOf P) (Sample.delegation P) Sample.rootModule
      Sample.rootLevel [] in
  NoDup (map fst (directories Sample.rootLevel))
  /\ exists T, resultOf level = Some T
               /\ JsObject.keys T = ["/x"; "/y"]%string
               /\ NoDup (JsObject.keys T).
Proof.
  intros P level.
  assert (Hnd : NoDup (map fst (directories Sample.rootLevel))).
  { repeat constructor. simpl. tauto. }
  split; [exact Hnd|].
  eexists. split; [reflexivity|]. split; [reflexivity|].
  destruct (keys_follow_route_file_then_listing (Sample.envOf P)
              (Sample.delegation P) Sample.rootModule
              [Sample.route "/app/index.ts"] [("x"%string, Sample.directoryX)] []
              Hnd eq_refl eq_refl) as (own & _ & _ & Hnodup).
  exact Hnodup.
Defined.

(** On [Sample.delegated]: the root with its delegating route file and no
    child directory. *)
Lemma delegated_module_merges_its_tree_witness :
  let P := Sample.delegated in
  let E := Sample.envOf P in
  let level :=
    getEndpoints E (Sample.delegation P) Sample.rootModule
      (DirTree [Sample.route "/app/index.ts"] []) [] in
  option_map (@JsObject.keys _) (resultOf level) = Some ["/x"; "/y"]%string
  /\ logsOf level = [].
Proof.
  intros P E level.
  assert (Hnested : exists c t,
            Sample.delegation P "/app/m1" "m1-context" "/app/index.ts" [] = Returned c
            /\ result c = Some t
            /\ NoDup (JsObject.keys t)
            /\ hasError (branchLogsOf E "/app/index.ts" (logs c)) = false
            /\ JsObject.keys t = ["/x"; "/y"]%string
            /\ branchLogsOf E "/app/index.ts" (logs c) = []).
  { eexists. eexists. split; [reflexivity|]. split; [reflexivity|].
    split; [vm_compute; repeat constructor; simpl; intuition discriminate|].
    split; [reflexivity|]. split; reflexivity. }
  destruct Hnested as (c & t & Hc & Ht & Hnd & Herr & Hkeys & Hlogs).
  unfold level.
  rewrite (@delegated_module_merges_its_tree string E (Sample.delegation P)
             Sample.rootModule (Sample.route "/app/index.ts") [] []
             "/app/index.ts"%string {| loaded_filepath := "m1" |}
             {| interface_context := "m1-context"%string |}
             eq_refl eq_refl eq_refl eq_refl eq_refl eq_refl c t Hc Ht Hnd Herr).
  simpl. now rewrite Hkeys, Hlogs.
Defined.

(** On a tree with one endpoint, given a new child. *)
Lemma flatten_after_new_key_witness :
  let entries : EndpointTree string :=
    [(".", Terminal (Sample.endpointAt "/app/index.ts" []))] in
  let child : EndpointNode string :=
    Subtree [(".", Terminal (Sample.endpointAt "/app/a/index.ts" [getSegment "a"]))] in
  JsObject.has (segmentKey "a") entries = false
  /\ JsObject.has "filepath" entries = false
  /\ flattenNode (Subtree (JsObject.set (segmentKey "a") child entries)) =
     Returned [Terminal (Sample.endpointAt "/app/index.ts" []);
               Terminal (Sample.endpointAt "/app/a/index.ts" [getSegment "a"])].
Proof.
  intros entries child. split; [reflexivity|]. split; [reflexivity|].
  rewrite (@flatten_after_new_key string entries "a"%string child eq_refl eq_refl).
  reflexivity.
Defined.

(** On two endpoints of [SampleMore.deep], the first with a view file. *)
Lemma views_stand_beside_endpoints_witness :
  let withView : Endpoint string :=
    {| endpoint_filepath := "/app/index.ts";
       viewFilepath := Some "/app/index.html"%string;
       methods := ["GET"%string];
       endpoint_module := Sample.rootModule;
       segments := [] |} in
  let structure :=
    {| endpoints_tree := [];
       endpoints_list := [Terminal withView;
                          Terminal (Sample.endpointAt "/app/c/index.ts"
                                      [getSegment "c"])] |} in
  exists views,
    makeBuildViews SampleMore.read (Some structure) = Returned views
    /\ length views = 2
    /\ map (option_map view_filepath) views = [Some "/app/index.html"%string; None].
Proof.
  intros withView structure. eexists. split; [reflexivity|].
  split; [|reflexivity].
  exact (proj1 (proj2 (views_stand_beside_endpoints string SampleMore.read)
                  structure _ eq_refl)).
Defined.

(** On [Sample.delegatedBrokenChild], whose child loader does not parse:
    the failure is a diagnostic, nothing is raised. *)
Lemma compilation_never_raises_witness :
  let E := Sample.envOf Sample.delegatedBrokenChild in
  (forall p, Tooling_hasExportedLoader E p = true ->
             Tooling_getDefaultExport_loader E p <> Exported None)
  /\ (forall p, Tooling_hasExportedLoader E p = true ->
                Tooling_getDefaultExport_loader E p <> Thrown Nullish)
  /\ getStructure E 1 "/app" <> Raised
  /\ hasError (match getStructure E 1 "/app" with
               | Returned s => structure_logs s
               | _ => []
               end) = true.
Proof.
  intros E.
  assert (Hexports : forall p, Tooling_hasExportedLoader E p = true ->
                               Tooling_getDefaultExport_loader E p <> Exported None).
  { intros p Hp. simpl in Hp |- *. unfold JsObject.has in Hp. simpl in Hp.
    destruct (String.eqb p "/app/x/index.ts"); [discriminate|].
    destruct (String.eqb p "/app/index.ts"); [discriminate | discriminate Hp]. }
  assert (Hthrown : forall p, Tooling_hasExportedLoader E p = true ->
                              Tooling_getDefaultExport_loader E p <> Thrown Nullish).
  { intros p _. simpl. destruct (String.eqb p "/app/x/index.ts"); discriminate. }
  split; [exact Hexports|]. split; [exact Hthrown|]. split; [|reflexivity].
  apply (compilation_never_raises E Hexports Hthrown
           (sample_builder_well_formed Sample.delegatedBrokenChild)).
  intros entry fl Hfl. simpl in Hfl.
  destruct (String.eqb entry "/app"); [injection Hfl as <-; reflexivity|].
  destruct (String.eqb entry "/app/m1"); [injection Hfl as <-; reflexivity|].
  discriminate Hfl.
Defined.

(** On the root level of [SampleMore.deep], whose route file is
    declarative. *)
Lemma level_without_collision_witness :
  let E := Sample.envOf SampleMore.deep in
  let level :=
    getEndpoints E (Sample.delegation SampleMore.deep) Sample.rootModule
      SampleMore.deepLevel [] in
  option_map (@JsObject.keys _) (resultOf level) = Some ["."; "/a"; "/c"]%string
  /\ logsOf level = [].
Proof.
  intros E level. unfold level.
  change SampleMore.deepLevel
    with (DirTree [Sample.route "/app/index.ts"] (directories SampleMore.deepLevel)).
  rewrite (@level_without_collision string E (Sample.delegation SampleMore.deep)
             Sample.rootModule (Sample.route "/app/index.ts") []
             (directories SampleMore.deepLevel) []
             (getEndpointFileByDeclaration E Sample.rootModule
                (Some "/app/index.ts"%string) (Some "/app/index.html"%string) [])).
  - split; reflexivity.
  - repeat constructor; simpl; intuition discriminate.
  - reflexivity.
  - intros nd [<-|[<-|[]]]; eexists; reflexivity.
  - intros nd [<-|[<-|[]]]; reflexivity.
Defined.
